(** * ais-web: feed ingestion and article intelligence services

    A shallow embedding of [services/rss_service.py] and
    [services/ai_service.py], and of the feed route of [app.py].

    Conventions of the embedding.
    - A Python [str] is a [string]; every [ascii] stands for the code point
      of the same number, but for 149, which stands for the bullet U+2022
      that [generate_key_points] looks for (149 is its place in
      Windows-1252; the control character U+0095 is left out).  So the
      strings covered are those over the code points 0..255 without
      U+0095, and the bullet.  Whitespace, line boundaries, digits and
      lower-casing are the Python ones on these characters; the bullet is
      no whitespace, no line boundary and no digit, and has no case, as
      U+0095.
    - A Python [int] is a [Z].
    - A value coming out of [xmltodict] or going into [jsonify] is a
      [value]; a [dict] is a [gmap string value].
    - A call that raises is a function into [option]: [None] is the raised
      exception, caught where the source catches it.
    - Network, XML parsing, the HTML parser, the clock and the remote chat
      model are arguments of the functions that use them.
    - Logging is left out: no result depends on it. *)

From Stdlib Require Import Ascii String ZArith Lia.
From stdpp Require Import base option list gmap strings pretty.

Set Warnings "-register-all".

Local Open Scope Z_scope.

(** ** Python primitives on [str] *)

Module Py.

(** The bullet U+2022. *)
Definition bullet : ascii := "149"%char.

(** [str.isspace] per character, on code points below 256. *)
Definition is_space (c : ascii) : bool :=
  let n := nat_of_ascii c in
  ((9 <=? n) && (n <=? 13) || (28 <=? n) && (n <=? 32)
   || (n =? 133) || (n =? 160))%nat.

(** Line boundaries of [str.splitlines], on code points below 256. *)
Definition is_linebreak (c : ascii) : bool :=
  let n := nat_of_ascii c in
  ((10 <=? n) && (n <=? 13) || (28 <=? n) && (n <=? 30) || (n =? 133))%nat.

(** The decimal digits [0-9]: what the pattern [\d] matches on this range. *)
Definition is_decimal (c : ascii) : bool :=
  let n := nat_of_ascii c in ((48 <=? n) && (n <=? 57))%nat.

(** [str.isdigit] per character: the decimal digits and the superscripts
    one, two and three. *)
Definition is_digit (c : ascii) : bool :=
  let n := nat_of_ascii c in
  (is_decimal c || (n =? 178) || (n =? 179) || (n =? 185))%nat.

(** [str.lower] per character: A-Z, and the upper-case letters of
    0xC0..0xDE except the multiplication sign. *)
Definition lower_char (c : ascii) : ascii :=
  let n := nat_of_ascii c in
  if ((65 <=? n) && (n <=? 90)
      || (192 <=? n) && (n <=? 222) && negb (n =? 215))%nat
  then ascii_of_nat (n + 32) else c.

Fixpoint lower (s : string) : string :=
  match s with
  | EmptyString => EmptyString
  | String c s' => String (lower_char c) (lower s')
  end.

Fixpoint rev_app (s acc : string) : string :=
  match s with
  | EmptyString => acc
  | String c s' => rev_app s' (String c acc)
  end.

Definition rev (s : string) : string := rev_app s "".

(** [s[:n]] for a constant [n >= 0]. *)
Fixpoint str_take (n : nat) (s : string) : string :=
  match n, s with
  | S k, String c s' => String c (str_take k s')
  | _, _ => EmptyString
  end.

(** [l[:n]] for an arbitrary [int]: a negative bound counts from the end. *)
Definition slice_to {A} (n : Z) (l : list A) : list A :=
  if 0 <=? n then take (Z.to_nat n) l
  else take (length l - Z.to_nat (- n)) l.

Fixpoint startswith (p s : string) : bool :=
  match p, s with
  | EmptyString, _ => true
  | String a p', String b s' => if decide (a = b) then startswith p' s' else false
  | String _ _, EmptyString => false
  end.

(** [p in s] for two strings. *)
Fixpoint contains (p s : string) : bool :=
  startswith p s ||
  match s with
  | EmptyString => false
  | String _ s' => contains p s'
  end.

Fixpoint lstrip (s : string) : string :=
  match s with
  | String c s' => if is_space c then lstrip s' else s
  | EmptyString => EmptyString
  end.

Definition rstrip (s : string) : string := rev (lstrip (rev s)).

(** [s.strip()] *)
Definition strip (s : string) : string := rstrip (lstrip s).

(** [sep.join(l)] *)
Fixpoint join (sep : string) (l : list string) : string :=
  match l with
  | [] => ""
  | [x] => x
  | x :: l' => x +:+ sep +:+ join sep l'
  end.

(** [s.split()]: the maximal runs of non-whitespace characters. [cur] is
    the run being read, reversed. *)
Fixpoint split_ws_go (cur : string) (s : string) : list string :=
  match s with
  | EmptyString => match cur with EmptyString => [] | _ => [rev cur] end
  | String c s' =>
      if is_space c then
        match cur with
        | EmptyString => split_ws_go "" s'
        | _ => rev cur :: split_ws_go "" s'
        end
      else split_ws_go (String c cur) s'
  end.

Definition split_ws (s : string) : list string := split_ws_go "" s.

(** [s.split(sep, maxsplit)] for a non-empty [sep]: scan left to right,
    cut at each occurrence, at most [maxsplit] times when it is given.
    [skip] counts the characters of a separator still to pass over and
    [cur] is the fragment being read, reversed. *)
Fixpoint split_go (sep : string) (maxsplit : option nat) (skip : nat)
    (cur : string) (s : string) : list string :=
  match s with
  | EmptyString => [rev cur]
  | String c s' =>
      match skip with
      | S k => split_go sep maxsplit k cur s'
      | O =>
          match maxsplit with
          | Some O => split_go sep maxsplit O (String c cur) s'
          | _ =>
              if startswith sep s
              then rev cur ::
                   split_go sep (pred <$> maxsplit) (String.length sep - 1) "" s'
              else split_go sep maxsplit O (String c cur) s'
          end
      end
  end.

Definition split (sep : string) (s : string) : list string :=
  split_go sep None 0 "" s.

Definition split_max (sep : string) (maxsplit : nat) (s : string) : list string :=
  split_go sep (Some maxsplit) 0 "" s.

(** [s.splitlines()]: cut at every line boundary, CR LF counting as one;
    no empty last line. *)
Fixpoint splitlines_go (cur : string) (s : string) : list string :=
  match s with
  | EmptyString => match cur with EmptyString => [] | _ => [rev cur] end
  | String c s' =>
      if is_linebreak c then
        match s' with
        | String d s'' =>
            if (nat_of_ascii c =? 13)%nat && (nat_of_ascii d =? 10)%nat
            then rev cur :: splitlines_go "" s''
            else rev cur :: splitlines_go "" s'
        | EmptyString => [rev cur]
        end
      else splitlines_go (String c cur) s'
  end.

(** The longest prefix of characters satisfying [p], and what follows it. *)
Fixpoint take_while (p : ascii → bool) (s : string) : string :=
  match s with
  | String c s' => if p c then String c (take_while p s') else EmptyString
  | EmptyString => EmptyString
  end.

Fixpoint drop_while (p : ascii → bool) (s : string) : string :=
  match s with
  | String c s' => if p c then drop_while p s' else s
  | EmptyString => EmptyString
  end.

(** The number that a run of decimal digits writes. *)
Fixpoint int_of_digits (acc : Z) (s : string) : Z :=
  match s with
  | String c s' => int_of_digits (10 * acc + (Z.of_nat (nat_of_ascii c) - 48)) s'
  | EmptyString => acc
  end.

End Py.

(** ** Values

    What [xmltodict.parse] returns and what the services hand to [jsonify]:
    [None], booleans, strings, integers, lists and dictionaries. *)

Inductive value :=
| VNone
| VBool (b : bool)
| VStr (s : string)
| VInt (z : Z)
| VList (l : list value)
| VDict (d : gmap string value).

(** Truth value of an object, as [if x:] and [not x] take it. *)
Definition truthy (v : value) : bool :=
  match v with
  | VNone => false
  | VBool b => b
  | VStr s => negb (bool_decide (s = ""))
  | VInt z => negb (z =? 0)
  | VList l => negb (bool_decide (length l = 0%nat))
  | VDict d => negb (bool_decide (size d = 0%nat))
  end.

(** [len(v)]; [None] where Python raises [TypeError]. *)
Definition py_len (v : value) : option nat :=
  match v with
  | VStr s => Some (String.length s)
  | VList l => Some (length l)
  | VDict d => Some (size d)
  | VNone | VBool _ | VInt _ => None
  end.

(** [d.get(k, default)] *)
Definition dict_get (d : gmap string value) (k : string) (dflt : value) : value :=
  default dflt (d !! k).

(** [k in d] *)
Definition dict_has (d : gmap string value) (k : string) : bool :=
  bool_decide (is_Some (d !! k)).

Definition nl : string := String (ascii_of_nat 10) EmptyString.

(** ** services/ai_service.py *)

Module AIService.

(** The remote client: [client model content] is the first text segment
    [response.message.content[0].text] of
    [client.chat(model=model, messages=[{role: user, content: content}],
    temperature=0.3)], or [None] when anything on the way raises. *)
Definition chat_client := string → string → option string.

Record AIService := {
  client : option chat_client;
  model_id : string;
  available : bool;
}.

Definition unavailable : AIService :=
  {| client := None; model_id := ""; available := false |}.

(** [__init__]: [api_key] and [cohere_model] are the two environment
    variables, [ClientV2] the constructor of the remote client. The mode is
    chosen here once; no operation below changes it. *)
Definition init (api_key cohere_model : option string)
    (ClientV2 : string → option chat_client) : AIService :=
  match api_key with
  | Some key =>
      if bool_decide (key = "") then unavailable
      else match ClientV2 key with
           | Some c => {| client := Some c;
                          model_id := default "command-a-03-2025" cohere_model;
                          available := true |}
           | None => unavailable
           end
  | None => unavailable
  end.

Definition is_available (self : AIService) : bool := available self.

(** The remote round trip of the three operations. *)
Definition chat (self : AIService) (message_content : string) : option string :=
  c ← client self; c (model_id self) message_content.

Definition _fallback_summary (content : string) (max_length : Z) : string :=
  if bool_decide (content = "") then "No content available for summary."
  else
    let words := Py.split_ws content in
    if Z.of_nat (length words) <=? max_length then content
    else
      let truncated := Py.join " " (Py.slice_to max_length words) in
      truncated +:+ "...".

Definition _fallback_key_points (content : string) (num_points : Z) : list string :=
  if bool_decide (content = "") then ["No content available"]
  else
    let sentences := Py.split ". " content in
    match sentences with
    | [] => ["No key points available"]
    | _ => Py.slice_to num_points sentences
    end.

Definition _fallback_sentiment : gmap string value :=
  <["sentiment" := VStr "neutral"]>
  (<["confidence" := VInt 50]>
  (<["explanation" := VStr "Sentiment analysis not available without AI service"]> ∅)).

Definition summary_message (article_title article_content : string)
    (max_length : Z) : string :=
  nl +:+ "Article Title: " +:+ article_title +:+ nl +:+ nl +:+
  "Article Content: " +:+ Py.str_take 3000 article_content +:+ nl +:+ nl +:+
  "Please provide a concise summary of this article in approximately " +:+
  pretty max_length +:+
  " words. Focus on the main points and key information. Also sound like a pirate".

Definition generate_summary (self : AIService)
    (article_title article_content : string) (max_length : Z) : string :=
  if negb (available self) then _fallback_summary article_content max_length
  else
    match chat self (summary_message article_title article_content max_length) with
    | Some text => Py.strip text
    | None => _fallback_summary article_content max_length
    end.

Definition key_points_message (article_content : string) (num_points : Z) : string :=
  nl +:+ "Article Content: " +:+ Py.str_take 3000 article_content +:+ nl +:+ nl +:+
  "Extract the " +:+ pretty num_points +:+
  " most important key points from this article. Return them as a numbered list, with each point on a new line." +:+
  nl +:+ nl +:+ "Key Points:".

(** [re.sub(r'^\d+\.\s*', '', line)] *)
Definition strip_numbering (line : string) : string :=
  match line with
  | String c _ =>
      if Py.is_decimal c then
        match Py.drop_while Py.is_decimal line with
        | String "." rest => Py.drop_while Py.is_space rest
        | _ => line
        end
      else line
  | EmptyString => line
  end.

(** [re.sub(r'^[-•]\s*', '', point)] *)
Definition strip_bullet (point : string) : string :=
  match point with
  | String c rest =>
      if bool_decide (c = "-"%char) || bool_decide (c = Py.bullet)
      then Py.drop_while Py.is_space rest
      else point
  | EmptyString => point
  end.

Definition key_point_of_line (line : string) : option string :=
  let line := Py.strip line in
  match line with
  | String c _ =>
      if Py.is_digit c || Py.startswith "-" line
         || Py.startswith (String Py.bullet "") line then
        let point := strip_bullet (strip_numbering line) in
        if bool_decide (Py.strip point = "") then None else Some (Py.strip point)
      else None
  | EmptyString => None
  end.

Definition generate_key_points (self : AIService)
    (article_content : string) (num_points : Z) : list string :=
  if negb (available self) then _fallback_key_points article_content num_points
  else
    match chat self (key_points_message article_content num_points) with
    | Some text =>
        let lines := Py.split nl (Py.strip text) in
        let key_points := omap key_point_of_line lines in
        Py.slice_to num_points key_points
    | None => _fallback_key_points article_content num_points
    end.

Definition sentiment_message (article_content : string) : string :=
  nl +:+ "Analyze the sentiment of the following article content:" +:+ nl +:+ nl +:+
  "Content: " +:+ Py.str_take 3000 article_content +:+ nl +:+ nl +:+
  "Please provide:" +:+ nl +:+
  "1. Overall sentiment (positive, negative, or neutral)" +:+ nl +:+
  "2. Confidence level (0-100)" +:+ nl +:+
  "3. Brief explanation of your analysis" +:+ nl +:+ nl +:+
  "Format your response as:" +:+ nl +:+
  "Sentiment: [positive/negative/neutral]" +:+ nl +:+
  "Confidence: [0-100]" +:+ nl +:+
  "Explanation: [brief explanation]".

(** [re.search(r'\d+', s)]: the first maximal run of decimal digits. *)
Fixpoint search_digits (s : string) : option string :=
  match s with
  | String c s' => if Py.is_decimal c then Some (Py.take_while Py.is_decimal s)
                   else search_digits s'
  | EmptyString => None
  end.

(** [int(s)] on a run of decimal digits; CPython refuses, with a
    [ValueError], a string of more than 4300 digits. *)
Definition py_int (s : string) : option Z :=
  if (4300 <? String.length s)%nat then None else Some (Py.int_of_digits 0 s).

(** The body of the loop over the lines of the response. [None] when an
    exception leaves the loop: the index [1] of a split without a second
    fragment. *)
Definition sentiment_line (sentiment_data : gmap string value) (line : string)
    : option (gmap string value) :=
  let line := Py.strip line in
  if Py.startswith "Sentiment:" line then
    rest ← Py.split_max ":" 1 line !! 1%nat;
    Some (<["sentiment" := VStr (Py.lower (Py.strip rest))]> sentiment_data)
  else if Py.startswith "Confidence:" line then
    let confidence :=
      default 50
        (rest ← Py.split_max ":" 1 line !! 1%nat;
         match search_digits (Py.strip rest) with
         | Some digits => py_int digits
         | None => Some 50
         end) in
    Some (<["confidence" := VInt confidence]> sentiment_data)
  else if Py.startswith "Explanation:" line then
    rest ← Py.split_max ":" 1 line !! 1%nat;
    Some (<["explanation" := VStr (Py.strip rest)]> sentiment_data)
  else Some sentiment_data.

Fixpoint sentiment_lines (sentiment_data : gmap string value)
    (lines : list string) : option (gmap string value) :=
  match lines with
  | [] => Some sentiment_data
  | line :: lines' =>
      d ← sentiment_line sentiment_data line; sentiment_lines d lines'
  end.

Definition analyze_sentiment (self : AIService) (article_content : string)
    : gmap string value :=
  if negb (available self) then _fallback_sentiment
  else
    match chat self (sentiment_message article_content) with
    | Some text =>
        match sentiment_lines ∅ (Py.split nl (Py.strip text)) with
        | Some sentiment_data => sentiment_data
        | None => _fallback_sentiment
        end
    | None => _fallback_sentiment
    end.

End AIService.

(** ** The standard library's [datetime]

    [datetime.strptime] and [datetime.isoformat] as CPython defines them
    (module [_strptime], class [datetime]), for the directives that the
    formats of [_parse_rss_date] use. The process runs in the C locale, so
    day and month names are the English ones; the names of the local time
    zone, which [%Z] accepts besides UTC and GMT, are arguments. *)

Module Datetime.

(** A [datetime] whose microsecond is 0 (no format here has [%f]);
    [tzinfo] is the UTC offset of a fixed-offset [timezone], in
    microseconds, and [None] for a naive value. *)
Record datetime := {
  year : Z; month : Z; day : Z;
  hour : Z; minute : Z; second : Z;
  tzinfo : option Z;
}.

Definition is_leap (y : Z) : bool :=
  (y mod 4 =? 0) && (negb (y mod 100 =? 0) || (y mod 400 =? 0)).

Definition days_in_month (y m : Z) : Z :=
  if m =? 2 then (if is_leap y then 29 else 28)
  else if (m =? 4) || (m =? 6) || (m =? 9) || (m =? 11) then 30
  else 31.

Definition day_us : Z := 24 * 3600 * 1000000.

(** The checks of the constructors [date], [timezone] and [datetime];
    [None] is their [ValueError]. *)
Definition valid (dt : datetime) : bool :=
  (1 <=? year dt) && (year dt <=? 9999) &&
  (1 <=? month dt) && (month dt <=? 12) &&
  (1 <=? day dt) && (day dt <=? days_in_month (year dt) (month dt)) &&
  (0 <=? hour dt) && (hour dt <=? 23) &&
  (0 <=? minute dt) && (minute dt <=? 59) &&
  (0 <=? second dt) && (second dt <=? 59) &&
  match tzinfo dt with
  | Some off => (- day_us <? off) && (off <? day_us)
  | None => true
  end.

Definition new (y m d hh mm ss : Z) (tz : option Z) : option datetime :=
  let dt := {| year := y; month := m; day := d;
               hour := hh; minute := mm; second := ss; tzinfo := tz |} in
  if valid dt then Some dt else None.

Definition digit_char (d : Z) : ascii := ascii_of_nat (48 + Z.to_nat d).

(** ["%0nd" % v] for [0 <= v < 10^n]: the [n] decimal digits of [v]. *)
Fixpoint pad (n : nat) (v : Z) : string :=
  match n with
  | O => ""
  | S k => pad k (v / 10) +:+ String (digit_char (v mod 10)) ""
  end.

(** The UTC offset as [isoformat] prints it: sign, hours and minutes, then
    seconds and microseconds when they are not zero. *)
Definition format_offset (off : Z) : string :=
  let sign := if off <? 0 then "-" else "+" in
  let a := Z.abs off in
  let hh := a / 3600000000 in
  let mm := a mod 3600000000 / 60000000 in
  let ss := a mod 60000000 in
  sign +:+ pad 2 hh +:+ ":" +:+ pad 2 mm +:+
  (if ss =? 0 then ""
   else ":" +:+ pad 2 (ss / 1000000) +:+
        (if ss mod 1000000 =? 0 then "" else "." +:+ pad 6 (ss mod 1000000))).

Definition isoformat (dt : datetime) : string :=
  pad 4 (year dt) +:+ "-" +:+ pad 2 (month dt) +:+ "-" +:+ pad 2 (day dt) +:+
  "T" +:+ pad 2 (hour dt) +:+ ":" +:+ pad 2 (minute dt) +:+ ":" +:+
  pad 2 (second dt) +:+
  match tzinfo dt with
  | Some off => format_offset off
  | None => ""
  end.

(** *** Reading a timestamp back

    [fromisoformat] accepts the extended format
    [YYYY-MM-DDTHH:MM:SS], optionally followed by an offset
    [+HH:MM], [+HH:MM:SS] or [+HH:MM:SS.ffffff] (or with [-]), and
    checks the ranges of the fields. *)






(** *** [strptime]

    [_strptime] turns the format into a regular expression, matches it
    against the start of the data ignoring case, rejects a match that
    leaves data over, and converts the named groups. The expressions are
    matched here as the backtracking matcher of [re] does it: [rmatch]
    lists the matches in the order in which it would try them, so the head
    of the list is the match [re] reports. *)

Inductive re :=
| Eps
| Lit (c : ascii)              (* a character, compared ignoring case *)
| LitCS (c : ascii)            (* (?-i:c) *)
| Cls (lo hi : ascii)          (* [lo-hi] *)
| D                            (* \d *)
| Sp                           (* \s+ *)
| Seq (r1 r2 : re)
| Alt (r1 r2 : re)
| Opt (r : re)                 (* r? *)
| Grp (name : ascii) (r : re). (* (?P<name>r) *)

Definition groups := list (ascii * string).

(** The ends of the non-empty runs of whitespace at the start of [s],
    longest run first. *)
Fixpoint sp_rests (s : string) : list string :=
  match s with
  | String c s' => if Py.is_space c then sp_rests s' ++ [s'] else []
  | EmptyString => []
  end.

Definition one_char (p : ascii → bool) (s : string) : list (groups * string) :=
  match s with
  | String d s' => if p d then [([], s')] else []
  | EmptyString => []
  end.

Fixpoint rmatch (r : re) (s : string) : list (groups * string) :=
  match r with
  | Eps => [([], s)]
  | Lit c => one_char (λ d, bool_decide (Py.lower_char d = Py.lower_char c)) s
  | LitCS c => one_char (λ d, bool_decide (d = c)) s
  | Cls lo hi =>
      one_char (λ d, (nat_of_ascii lo <=? nat_of_ascii d)%nat
                     && (nat_of_ascii d <=? nat_of_ascii hi)%nat) s
  | D => one_char Py.is_decimal s
  | Sp => (λ s', ([], s')) <$> sp_rests s
  | Seq r1 r2 =>
      '(g1, s1) ← rmatch r1 s;
      '(g2, s2) ← rmatch r2 s1;
      [(g1 ++ g2, s2)]
  | Alt r1 r2 => rmatch r1 s ++ rmatch r2 s
  | Opt r1 => rmatch r1 s ++ [([], s)]
  | Grp name r1 =>
      (λ '(g, s'),
         ((name, Py.str_take (String.length s - String.length s') s) :: g, s'))
      <$> rmatch r1 s
  end.

Fixpoint lit (s : string) : re :=
  match s with
  | EmptyString => Eps
  | String c s' => Seq (Lit c) (lit s')
  end.

(** [a|b|...] for a non-empty list; the empty list has no match. *)
Fixpoint alts (l : list re) : re :=
  match l with
  | [] => Cls "1" "0"
  | [r] => r
  | r :: l' => Alt r (alts l')
  end.

Definition a_weekday : list string :=
  ["mon"; "tue"; "wed"; "thu"; "fri"; "sat"; "sun"].

Definition a_month : list string :=
  [""; "jan"; "feb"; "mar"; "apr"; "may"; "jun";
   "jul"; "aug"; "sep"; "oct"; "nov"; "dec"].

(** [sorted(l, key=len, reverse=True)]: stable, longest first. *)
Fixpoint insert_by_len (x : string) (l : list string) : list string :=
  match l with
  | [] => [x]
  | y :: l' => if (String.length y <=? String.length x)%nat then x :: l
               else y :: insert_by_len x l'
  end.

Definition sort_by_len (l : list string) : list string :=
  foldr insert_by_len [] l.

(** [LocaleTime.timezone], flattened: UTC, GMT and the standard name of the
    local zone, then its daylight name when [time.daylight] is set. *)
Definition timezone (tzname : string * string) (daylight : bool) : list string :=
  ["utc"; "gmt"; Py.lower (tzname.1)] ++
  (if daylight then [Py.lower (tzname.2)] else []).

(** [__seqToRE]: the names as alternatives, longest first, in a group;
    without any name that is not empty, the empty expression. *)
Definition seqToRE (l : list string) (directive : ascii) : re :=
  if forallb (λ s, bool_decide (s = "")) l then Eps
  else Grp directive (alts (lit <$> sort_by_len l)).

Fixpoint seqs (l : list re) : re :=
  match l with
  | [] => Eps
  | [r] => r
  | r :: l' => Seq r (seqs l')
  end.

(** [\d{1,6}] *)
Definition digits_1_6 : re :=
  Seq D (Opt (Seq D (Opt (Seq D (Opt (Seq D (Opt (Seq D (Opt D))))))))).

(** [[+-]\d\d:?[0-5]\d(:?[0-5]\d(\.\d{1,6})?)?|(?-i:Z)] *)
Definition z_re : re :=
  Alt (seqs [Alt (Lit "+") (Lit "-"); D; D; Opt (Lit ":"); Cls "0" "5"; D;
             Opt (seqs [Opt (Lit ":"); Cls "0" "5"; D;
                        Opt (Seq (Lit ".") digits_1_6)])])
      (LitCS "Z").

(** The table of [TimeRE], at the directives in use. *)
Definition directive_re (tzname : string * string) (daylight : bool)
    (d : ascii) : option re :=
  if decide (d = "d"%char) then
    Some (Grp d (alts [Seq (Lit "3") (Cls "0" "1"); Seq (Cls "1" "2") D;
                       Seq (Lit "0") (Cls "1" "9"); Cls "1" "9";
                       Seq (Lit " ") (Cls "1" "9")]))
  else if decide (d = "H"%char) then
    Some (Grp d (alts [Seq (Lit "2") (Cls "0" "3"); Seq (Cls "0" "1") D; D]))
  else if decide (d = "m"%char) then
    Some (Grp d (alts [Seq (Lit "1") (Cls "0" "2"); Seq (Lit "0") (Cls "1" "9");
                       Cls "1" "9"]))
  else if decide (d = "M"%char) then
    Some (Grp d (alts [Seq (Cls "0" "5") D; D]))
  else if decide (d = "S"%char) then
    Some (Grp d (alts [Seq (Lit "6") (Cls "0" "1"); Seq (Cls "0" "5") D; D]))
  else if decide (d = "Y"%char) then
    Some (Grp d (Seq D (Seq D (Seq D D))))
  else if decide (d = "z"%char) then Some (Grp d z_re)
  else if decide (d = "a"%char) then Some (seqToRE a_weekday d)
  else if decide (d = "b"%char) then Some (seqToRE (tail a_month) d)
  else if decide (d = "Z"%char) then Some (seqToRE (timezone tzname daylight) d)
  else None.

(** [TimeRE.pattern]: a run of whitespace in the format stands for [\s+], a
    percent sign and the character after it for the expression of the
    directive, any other character for itself. [in_space] tells that the
    character before was whitespace. [None] is the [ValueError] of a bad
    directive or of a stray percent sign. *)
Fixpoint pattern_go (tzname : string * string) (daylight : bool)
    (in_space : bool) (format : string) : option re :=
  match format with
  | EmptyString => Some Eps
  | String c rest =>
      if Py.is_space c then
        if in_space then pattern_go tzname daylight true rest
        else Seq Sp <$> pattern_go tzname daylight true rest
      else if decide (c = "%"%char) then
        match rest with
        | String d rest' =>
            r ← directive_re tzname daylight d;
            Seq r <$> pattern_go tzname daylight false rest'
        | EmptyString => None
        end
      else Seq (Lit c) <$> pattern_go tzname daylight false rest
  end.

Definition pattern (tzname : string * string) (daylight : bool)
    (format : string) : option re :=
  pattern_go tzname daylight false format.

(** [found.groupdict().get(name)] *)
Fixpoint group (g : groups) (name : ascii) : option string :=
  match g with
  | [] => None
  | (n, s) :: g' => if decide (n = name) then Some s else group g' name
  end.

(** [int(s)] where [s] is made of decimal digits after optional leading
    whitespace; [None] is the [ValueError] for anything else. *)
Definition int_field (s : string) : option Z :=
  let s := Py.lstrip s in
  match s with
  | EmptyString => None
  | _ => if bool_decide (Py.drop_while Py.is_decimal s = "")
         then Some (Py.int_of_digits 0 s) else None
  end.

Fixpoint str_drop (n : nat) (s : string) : string :=
  match n, s with
  | S k, String _ s' => str_drop k s'
  | _, _ => s
  end.

(** [s[i:j]] for constants [0 <= i <= j]. *)
Definition substr (i j : nat) (s : string) : string :=
  Py.str_take (j - i) (str_drop i s).

Fixpoint index_of (x : string) (l : list string) (i : Z) : option Z :=
  match l with
  | [] => None
  | y :: l' => if decide (x = y) then Some i else index_of x l' (i + 1)
  end.

(** The conversion of group [z]: seconds and microseconds east of UTC. *)
Definition gmtoff_of (z : string) : option (Z * Z) :=
  if decide (z = "Z") then Some (0, 0)
  else
    z ← (if decide (substr 3 4 z = ":") then
           let z := Py.str_take 3 z +:+ str_drop 4 z in
           if (5 <? String.length z)%nat then
             if decide (substr 5 6 z = ":")
             then Some (Py.str_take 5 z +:+ str_drop 6 z)
             else None
           else Some z
         else Some z);
    hours ← int_field (substr 1 3 z);
    minutes ← int_field (substr 3 5 z);
    seconds ← (if decide (substr 5 7 z = "") then Some 0
               else int_field (substr 5 7 z));
    let gmtoff := hours * 60 * 60 + minutes * 60 + seconds in
    let gmtoff_remainder := str_drop 8 z in
    gmtoff_fraction ←
      int_field (gmtoff_remainder +:+
                 Py.str_take (6 - String.length gmtoff_remainder) "000000");
    if Py.startswith "-" z then Some (- gmtoff, - gmtoff_fraction)
    else Some (gmtoff, gmtoff_fraction).

Definition field (g : groups) (name : ascii) (dflt : Z) : option Z :=
  match group g name with
  | Some s => int_field s
  | None => Some dflt
  end.

(** [datetime.strptime(data_string, format)]; [None] is its [ValueError].
    The groups [a] and [Z] only reach the weekday and the daylight flag of
    the time tuple, which the [datetime] does not keep. *)
Definition strptime (tzname : string * string) (daylight : bool)
    (data_string format : string) : option datetime :=
  format_regex ← pattern tzname daylight format;
  '(found, rest) ← head (rmatch format_regex data_string);
  if negb (bool_decide (rest = "")) then None else
  y ← field found "Y" 1900;
  m ← match group found "b" with
       | Some s => index_of (Py.lower s) a_month 0
       | None => field found "m" 1
       end;
  d ← field found "d" 1;
  hh ← field found "H" 0;
  mm ← field found "M" 0;
  ss ← field found "S" 0;
  tz ← match group found "z" with
        | Some z => '(gmtoff, gmtoff_fraction) ← gmtoff_of z;
                    Some (Some (gmtoff * 1000000 + gmtoff_fraction))
        | None => Some None
        end;
  new y m d hh mm ss tz.

End Datetime.

(** ** The objects of [bs4]

    The tree that [BeautifulSoup(markup, 'html.parser')] builds, and the two
    operations that [_clean_html] applies to it. The parser itself is an
    argument of the service. *)

Module Bs4.

Inductive node :=
| NavigableString (s : string)   (* text that [get_text] joins *)
| OtherString (s : string)       (* comments, declarations and the other
                                    strings that [get_text] leaves out *)
| Tag (name : string) (contents : list node).

(** The document is the list of its top-level nodes. *)
Definition soup := list node.

(** [for t in soup(names): t.decompose()]: every element with one of the
    names goes, with all that is inside it. *)
Fixpoint decompose_node (names : list string) (n : node) : list node :=
  match n with
  | Tag name contents =>
      if bool_decide (name ∈ names) then []
      else [Tag name (flat_map (decompose_node names) contents)]
  | _ => [n]
  end.

Definition decompose_all (names : list string) (s : soup) : soup :=
  flat_map (decompose_node names) s.

Fixpoint strings (n : node) : list string :=
  match n with
  | NavigableString s => [s]
  | OtherString _ => []
  | Tag _ contents => flat_map strings contents
  end.

(** [soup.get_text()] *)
Definition get_text (s : soup) : string :=
  Py.join "" (flat_map strings s).

End Bs4.

(** ** services/rss_service.py *)

Module RSSService.

(** What the service reaches outside itself. *)
Record World := {
  (** [time.tzname] and [time.daylight], read by [strptime] *)
  tzname : string * string;
  daylight : bool;
  (** [BeautifulSoup(markup, 'html.parser')]; [None] when it raises *)
  BeautifulSoup : value → option Bs4.soup;
  (** [session.get(url, timeout=t)] followed by [raise_for_status()]: the
      body of the response, or [None] for a [requests.RequestException] *)
  session_get : string → Z → option string;
  (** [xmltodict.parse(body)]; [None] when it raises *)
  xmltodict_parse : string → option (gmap string value);
  (** [datetime.now().isoformat()] *)
  now_isoformat : string;
}.

Record RSSService := { timeout : Z }.

(** [RSSService()] *)
Definition init : RSSService := {| timeout := 30 |}.

Section service.
Context (w : World) (self : RSSService).

Definition formats : list string :=
  ["%a, %d %b %Y %H:%M:%S %Z";
   "%a, %d %b %Y %H:%M:%S %z";
   "%a, %d %b %Y %H:%M:%S GMT";
   "%Y-%m-%d %H:%M:%S";
   "%Y-%m-%dT%H:%M:%S%z";
   "%Y-%m-%dT%H:%M:%SZ"].

(** The loop over the formats: the first one that parses returns. *)
Fixpoint first_parsed (date_string : string) (fmts : list string)
    : option Datetime.datetime :=
  match fmts with
  | [] => None
  | fmt :: fmts' =>
      match Datetime.strptime (tzname w) (daylight w) date_string fmt with
      | Some dt => Some dt
      | None => first_parsed date_string fmts'
      end
  end.

(** [strptime] raises a [TypeError] on anything but a string, which the
    outer handler turns into the argument itself. *)
Definition _parse_rss_date (date_string : value) : value :=
  match date_string with
  | VStr s =>
      match first_parsed s formats with
      | Some dt => VStr (Datetime.isoformat dt)
      | None => date_string
      end
  | _ => date_string
  end.

(** [x[:500]]; [None] where Python raises. *)
Definition slice_500 (v : value) : option value :=
  match v with
  | VStr s => Some (VStr (Py.str_take 500 s))
  | VList l => Some (VList (take 500 l))
  | VNone | VBool _ | VInt _ | VDict _ => None
  end.

Definition collapse_whitespace (text : string) : string :=
  let lines := Py.strip <$> Py.splitlines_go "" text in
  let chunks := Py.strip <$> flat_map (Py.split "  ") lines in
  Py.join " " (filter (λ chunk, chunk ≠ "") chunks).

(** [None] when the exception handler itself raises. *)
Definition _clean_html (html_content : value) : option value :=
  if negb (truthy html_content) then Some (VStr "")
  else
    match BeautifulSoup w html_content with
    | Some soup =>
        let text := Bs4.get_text (Bs4.decompose_all ["script"; "style"] soup) in
        Some (VStr (Py.str_take 1000 (collapse_whitespace text)))
    | None => slice_500 html_content
    end.

(** [None] is the [None] that the source returns from its handler. *)
Definition _parse_article_xml (item : value) : option (gmap string value) :=
  match item with
  | VDict item =>
      summary ←
        (if dict_has item "description"
         then _clean_html (dict_get item "description" VNone)
         else if dict_has item "summary"
         then _clean_html (dict_get item "summary" VNone)
         else Some (VStr ""));
      content ←
        (if dict_has item "content:encoded"
         then _clean_html (dict_get item "content:encoded" VNone)
         else if dict_has item "content"
         then _clean_html (dict_get item "content" VNone)
         else Some (VStr ""));
      let categories := dict_get item "category" (VList []) in
      let categories :=
        match categories with VList l => l | _ => [categories] end in
      let article : gmap string value :=
        <["title" := dict_get item "title" (VStr "Untitled")]>
        (<["link" := dict_get item "link" (VStr "")]>
        (<["published" := dict_get item "pubDate" (VStr "")]>
        (<["updated" :=
             dict_get item "updated" (dict_get item "pubDate" (VStr ""))]>
        (<["author" :=
             dict_get item "author" (dict_get item "dc:creator" (VStr "Unknown"))]>
        (<["summary" := summary]>
        (<["content" := content]>
        (<["tags" := VList (filter (λ cat, truthy cat = true) categories)]>
        (<["guid" := dict_get item "guid" (dict_get item "link" (VStr ""))]>
        (<["source" := VStr "RSS Feed"]> ∅))))))))) in
      let pub_date := dict_get item "pubDate" (VStr "") in
      if truthy pub_date
      then Some (<["published_date" := _parse_rss_date pub_date]> article)
      else Some article
  | _ => None
  end.

(** [needle in v]; [None] where Python raises [TypeError]. *)
Definition py_in (needle : string) (v : value) : option bool :=
  match v with
  | VDict d => Some (dict_has d needle)
  | VStr s => Some (Py.contains needle s)
  | VList l =>
      Some (existsb (λ x, match x with
                          | VStr s => bool_decide (s = needle)
                          | _ => false
                          end) l)
  | VNone | VBool _ | VInt _ => None
  end.

(** The four ways out of [fetch_rss_feed]. *)
Inductive fetch_exit :=
| Returned (result : gmap string value)
| InvalidFormat      (* the [else] branch: "Invalid RSS format" *)
| RequestFailed      (* [except requests.RequestException] *)
| OtherError.        (* [except Exception] *)

Definition channel_result (feed_url : string) (channel : gmap string value)
    : fetch_exit :=
  match py_len (dict_get channel "item" (VList [])) with
  | None => OtherError
  | Some total_entries =>
      let feed_info : gmap string value :=
        <["title" := dict_get channel "title" (VStr "Unknown Feed")]>
        (<["description" := dict_get channel "description" (VStr "")]>
        (<["link" := dict_get channel "link" (VStr feed_url)]>
        (<["updated" :=
             dict_get channel "lastBuildDate"
               (dict_get channel "pubDate" (VStr ""))]>
        (<["language" := dict_get channel "language" (VStr "en")]>
        (<["total_entries" := VInt (Z.of_nat total_entries)]> ∅))))) in
      let items := dict_get channel "item" (VList []) in
      let items := match items with VList l => l | _ => [items] end in
      let articles := omap _parse_article_xml (take 20 items) in
      Returned
        (<["feed_info" := VDict feed_info]>
        (<["articles" := VList (VDict <$> articles)]>
        (<["fetch_time" := VStr (now_isoformat w)]>
        (<["success" := VBool true]> ∅))))
  end.

Definition fetch_exit_of (feed_url : string) : fetch_exit :=
  match session_get w feed_url (timeout self) with
  | None => RequestFailed
  | Some body =>
      match xmltodict_parse w body with
      | None => OtherError
      | Some feed_data =>
          match feed_data !! "rss" with
          | None => InvalidFormat
          | Some rss =>
              match py_in "channel" rss with
              | None => OtherError
              | Some false => InvalidFormat
              | Some true =>
                  match rss with
                  | VDict r =>
                      match r !! "channel" with
                      | Some (VDict channel) => channel_result feed_url channel
                      | _ => OtherError
                      end
                  | _ => OtherError
                  end
              end
          end
      end
  end.

(** Every way out but the first returns [None]. *)
Definition fetch_rss_feed (feed_url : string) : option (gmap string value) :=
  match fetch_exit_of feed_url with
  | Returned result => Some result
  | InvalidFormat | RequestFailed | OtherError => None
  end.

End service.

End RSSService.

(** ** app.py: the route [/api/fetch-feed] *)

Module App.

(** Status code and JSON body of the response; [url] is the query
    argument. *)
Definition fetch_feed (w : RSSService.World) (url : option string)
    : Z * gmap string value :=
  match url with
  | Some feed_url =>
      if bool_decide (feed_url = "") then
        (400, <["success" := VBool false]>
              (<["error" := VStr "Feed URL is required"]> ∅))
      else
        match RSSService.fetch_rss_feed w RSSService.init feed_url with
        | Some feed_data =>
            if negb (truthy (VDict feed_data)) then
              (500, <["success" := VBool false]>
                    (<["error" := VStr "Failed to fetch or parse RSS feed"]> ∅))
            else
              (200, <["success" := VBool true]>
                    (<["data" := VDict feed_data]> ∅))
        | None =>
            (500, <["success" := VBool false]>
                  (<["error" := VStr "Failed to fetch or parse RSS feed"]> ∅))
        end
  | None =>
      (400, <["success" := VBool false]>
            (<["error" := VStr "Feed URL is required"]> ∅))
  end.

End App.

(** * Vocabulary of the properties *)

Module Spec.
Import AIService.

(** Every character of the string satisfies [p]. *)
Fixpoint str_forallb (p : ascii → bool) (s : string) : bool :=
  match s with
  | EmptyString => true
  | String c s' => p c && str_forallb p s'
  end.

(** The two ways into the fallback: the service is unavailable, or the
    remote round trip for this message raises. *)
Definition falls_back (self : AIService) (message_content : string) : Prop :=
  available self = false ∨ chat self message_content = None.

(** A line of the response announces a field of the sentiment result. *)
Definition triggers (label line : string) : bool :=
  Py.startswith label (Py.strip line).

Definition fires (key line : string) : Prop :=
  (key = "sentiment" ∧ triggers "Sentiment:" line = true) ∨
  (key = "confidence" ∧ triggers "Confidence:" line = true) ∨
  (key = "explanation" ∧ triggers "Explanation:" line = true).

(** Some line of the response text announces the field [key]. *)
Definition announced (key text : string) : Prop :=
  ∃ line, line ∈ Py.split nl (Py.strip text) ∧ fires key line.

(** A service in available mode whose model answers [text] to everything. *)
Definition answering (text : string) : AIService :=
  {| client := Some (λ _ _, Some text);
     model_id := "command-a-03-2025";
     available := true |}.

(** *** Feeds *)

Import RSSService.


(** The value of the first key of [keys] that the item has. *)
Fixpoint first_present (keys : list string) (item : gmap string value)
    : option value :=
  match keys with
  | [] => None
  | key :: keys' =>
      match item !! key with
      | Some v => Some v
      | None => first_present keys' item
      end
  end.

(** The text field of an article taken from the first present of [keys]:
    sanitized, or empty when the item has none of them. *)
Definition text_field (w : World) (keys : list string)
    (item : gmap string value) : option value :=
  match first_present keys item with
  | Some html_content => _clean_html w html_content
  | None => Some (VStr "")
  end.

(** [fmt] is the first format of [fmts] under which the string parses, and
    [dt] is what it parses to. *)
Definition first_match (w : World) (date_string : string) (fmts : list string)
    (fmt : string) (dt : Datetime.datetime) : Prop :=
  ∃ pre post,
    fmts = pre ++ fmt :: post ∧
    Forall (λ f, Datetime.strptime (tzname w) (daylight w) date_string f = None) pre ∧
    Datetime.strptime (tzname w) (daylight w) date_string fmt = Some dt.

Definition no_match (w : World) (date_string : string) (fmts : list string)
    : Prop :=
  Forall (λ f, Datetime.strptime (tzname w) (daylight w) date_string f = None) fmts.

(** The document has the shape [rss.channel]. *)
Definition has_channel (feed_data channel : gmap string value) : Prop :=
  ∃ rss, feed_data !! "rss" = Some (VDict rss) ∧
         rss !! "channel" = Some (VDict channel).

(** The request for [feed_url] succeeds and its body parses to a document
    with that channel. *)
Definition serves (w : World) (self : RSSService) (feed_url : string)
    (channel : gmap string value) : Prop :=
  ∃ body feed_data,
    session_get w feed_url (timeout self) = Some body ∧
    xmltodict_parse w body = Some feed_data ∧
    has_channel feed_data channel.


(** Reading a result. *)
Definition feed_info_of (result : option (gmap string value)) (key : string)
    : option value :=
  r ← result;
  match r !! "feed_info" with
  | Some (VDict feed_info) => feed_info !! key
  | _ => None
  end.

Definition articles_of (result : option (gmap string value))
    : option (list value) :=
  r ← result;
  match r !! "articles" with
  | Some (VList articles) => Some articles
  | _ => None
  end.

Definition article_field (article : value) (key : string) : option value :=
  match article with
  | VDict a => a !! key
  | _ => None
  end.

(** The field [key] of the article at place [i] of a result. *)
Definition article_at (result : option (gmap string value)) (i : nat)
    (key : string) : option value :=
  articles ← articles_of result;
  article ← articles !! i;
  article_field article key.

(** *** Sample worlds and documents *)

(** A parser that takes a string for plain text, unless it holds a marked
    section ["<!["], which it rejects; it rejects what is no string. *)
Definition text_parser (markup : value) : option Bs4.soup :=
  match markup with
  | VStr s => if Py.contains "<![" s then None
              else Some [Bs4.NavigableString s]
  | _ => None
  end.

(** A world in which every request is answered, and the answer parses to
    [feed_data]. *)
Definition world_serving (feed_data : gmap string value) : World :=
  {| tzname := ("UTC", "UTC");
     daylight := false;
     BeautifulSoup := text_parser;
     session_get := λ _ _, Some "<rss/>";
     xmltodict_parse := λ _, Some feed_data;
     now_isoformat := "2024-01-02T08:30:00" |}.

(** A world in which every request times out. *)
Definition world_offline : World :=
  {| tzname := ("UTC", "UTC");
     daylight := false;
     BeautifulSoup := text_parser;
     session_get := λ _ _, None;
     xmltodict_parse := λ _, None;
     now_isoformat := "2024-01-02T08:30:00" |}.

Definition rss_document (channel : gmap string value) : gmap string value :=
  {["rss" := VDict {["channel" := VDict channel]}]}.

Definition feed_url : string := "https://example.org/feed.xml".

(** The item of the specification's example. *)
Definition item_A : gmap string value :=
  <["title" := VStr "A"]>
  (<["pubDate" := VStr "Mon, 01 Jan 2024 10:00:00 GMT"]> ∅).

Definition titled (title : string) : value :=
  VDict {["title" := VStr title]}.

(** Twenty-one items, the first of which is an empty element. *)
Definition items_21 : list value :=
  VNone :: replicate 20 (titled "A").

(** Twenty-five items in order. *)
Definition items_25 : list value :=
  (λ n : nat, titled (pretty n)) <$> seq 1 25.

End Spec.

(** *** Shapes of strings and results *)

Module Shape.
Import Spec RSSService.

(** The string does not begin, or does not end, with whitespace. *)
Definition starts_clean (s : string) : bool :=
  match s with
  | String c _ => negb (Py.is_space c)
  | EmptyString => true
  end.

Definition ends_clean (s : string) : bool := starts_clean (Py.rev s).

(** No two spaces in a row. *)
Fixpoint single_spaced (s : string) : bool :=
  match s with
  | String a s' =>
      match s' with
      | String b _ =>
          negb (bool_decide (a = " "%char) && bool_decide (b = " "%char))
          && single_spaced s'
      | EmptyString => true
      end
  | EmptyString => true
  end.

(** No line boundary in the string. *)
Definition one_line (s : string) : bool :=
  str_forallb (λ c, negb (Py.is_linebreak c)) s.

(** A word: not empty, and without whitespace. *)
Definition is_word (s : string) : Prop :=
  s ≠ "" ∧ str_forallb (λ c, negb (Py.is_space c)) s = true.

(** The list with [mark] put after its last string: on its own when the
    list is empty. *)
Fixpoint mark_last (mark : string) (l : list string) : list string :=
  match l with
  | [] => [mark]
  | [x] => [x +:+ mark]
  | x :: l' => x :: mark_last mark l'
  end.

(** A value is an object. *)
Definition is_object (v : value) : bool :=
  match v with VDict _ => true | _ => false end.

(** A source of text that sanitization takes without raising, whatever the
    parser does: nothing, a string or a list. *)
Definition sliceable (v : value) : bool :=
  match v with
  | VNone | VStr _ | VList _ => true
  | VBool b => negb b
  | VInt z => z =? 0
  | VDict d => bool_decide (size d = 0%nat)
  end.

(** The keys that every article has. *)
Definition article_keys : gset string :=
  {["title"; "link"; "published"; "updated"; "author"; "summary";
    "content"; "tags"; "guid"; "source"]}.

(** The categories of an item, as a list. *)
Definition categories_of (item : gmap string value) : list value :=
  match item !! "category" with
  | None => []
  | Some (VList l) => l
  | Some c => [c]
  end.

(** The fields of a sentiment result have the types of the fallback's. *)
Definition sentiment_typed (key : string) (v : value) : Prop :=
  (key = "confidence" ∧ ∃ n, v = VInt n ∧ 0 ≤ n) ∨
  (key = "sentiment" ∧
   ∃ s, v = VStr s ∧ Py.lower s = s ∧ starts_clean s = true ∧ ends_clean s = true) ∨
  (key = "explanation" ∧
   ∃ s, v = VStr s ∧ starts_clean s = true ∧ ends_clean s = true).

(** What the route answers to a missing URL. *)
Definition url_required : Z * gmap string value :=
  (400, <["success" := VBool false]>
        (<["error" := VStr "Feed URL is required"]> ∅)).

End Shape.

(** * Properties *)

(** ** Python primitives *)

Module PyFacts.
Import Py Spec.

Lemma str_take_length n s : (String.length (str_take n s) ≤ n)%nat.
Proof.
  revert s. induction n as [|n IH]; intros [|c s]; simpl; try lia.
  specialize (IH s). lia.
Qed.

Lemma str_take_all n s : (String.length s ≤ n)%nat → str_take n s = s.
Proof.
  revert s. induction n as [|n IH]; intros [|c s]; simpl; try done; try lia.
  intros Hlen. f_equal. apply IH. lia.
Qed.

Lemma slice_to_nonneg {A} (n : Z) (l : list A) :
  0 ≤ n → slice_to n l = take (Z.to_nat n) l.
Proof.
  intros Hn. unfold slice_to. destruct (Z.leb_spec 0 n); [done | lia].
Qed.


Lemma append_cons c (s t : string) : String c s +:+ t = String c (s +:+ t).
Proof. reflexivity. Qed.

Lemma append_empty_l (t : string) : "" +:+ t = t.
Proof. reflexivity. Qed.

Lemma append_assoc (s t u : string) : (s +:+ t) +:+ u = s +:+ (t +:+ u).
Proof.
  induction s as [|c s IH]; [done|]. rewrite !append_cons. by rewrite IH.
Qed.

Lemma append_empty_r (s : string) : s +:+ "" = s.
Proof. induction s as [|c s IH]; [done|]. rewrite append_cons. by rewrite IH. Qed.

Lemma append_nonempty s t : t ≠ "" → s +:+ t ≠ "".
Proof. destruct s; simpl; [done | discriminate]. Qed.

Lemma startswith_app p s : startswith p s = true → ∃ r, s = p +:+ r.
Proof.
  revert s. induction p as [|a p IH]; intros s; simpl.
  - eauto.
  - destruct s as [|b s]; [discriminate|].
    destruct (decide (a = b)) as [->|]; [|discriminate].
    intros [r ->]%IH. eauto.
Qed.

Lemma split_go_nonempty sep m skip cur s : split_go sep m skip cur s ≠ [].
Proof.
  revert m skip cur. induction s as [|c s IH]; intros m skip cur; simpl.
  - discriminate.
  - destruct skip; [|apply IH].
    destruct m as [[|k]|]; try apply IH;
      destruct (startswith sep (String c s)); (discriminate || apply IH).
Qed.

(** With no cut left, the rest of the string is the last fragment. *)
Lemma split_go_no_more sep cur s :
  split_go sep (Some O) 0 cur s = [rev_app cur s].
Proof.
  revert cur. induction s as [|c s IH]; intros cur; simpl; [done|].
  by rewrite IH.
Qed.

Lemma rev_app_append cur acc s : rev_app cur acc +:+ s = rev_app cur (acc +:+ s).
Proof.
  revert acc. induction cur as [|c cur IH]; intros acc; simpl; [done|].
  by rewrite IH.
Qed.

Lemma rev_cons_append c cur s : rev (String c cur) +:+ s = rev cur +:+ String c s.
Proof. unfold rev. simpl. by rewrite !rev_app_append. Qed.

(** Passing over the rest of a separator. *)
Lemma split_go_skip sep m cur u s :
  split_go sep m (String.length u) cur (u +:+ s) = split_go sep m 0 cur s.
Proof. induction u as [|c u IH]; [done|]. rewrite append_cons. simpl. apply IH. Qed.

Lemma join_cons sep x l : l ≠ [] → join sep (x :: l) = x +:+ sep +:+ join sep l.
Proof. by destruct l. Qed.

(** Splitting at a separator loses nothing: the fragments, joined by the
    separator, are the string. In the middle of the scan, [u] is what is
    left to pass over of the separator just found. *)
Lemma join_split_go sep s :
  sep ≠ "" →
  ∀ cur u rest,
    s = u +:+ rest →
    join sep (split_go sep None (String.length u) cur s) = rev cur +:+ rest.
Proof.
  intros Hsep. induction s as [|c s IH]; intros cur u rest Hs.
  - destruct u; [|done]. rewrite append_empty_l in Hs. subst rest.
    simpl. by rewrite append_empty_r.
  - destruct u as [|d u].
    + rewrite append_empty_l in Hs. subst rest. cbn [String.length split_go].
      destruct (startswith sep (String c s)) eqn:Hp.
      * destruct (startswith_app _ _ Hp) as [rest Hrest].
        destruct sep as [|a sep]; [done|]. rewrite append_cons in Hrest.
        injection Hrest as <- ->.
        cbn [String.length fmap option_fmap option_map].
        replace (S (String.length sep) - 1)%nat with (String.length sep) by lia.
        rewrite join_cons by apply split_go_nonempty.
        rewrite (IH "" sep rest eq_refl).
        by rewrite append_cons.
      * pose proof (IH (String c cur) "" s eq_refl) as Hs.
        cbn [String.length] in Hs. rewrite Hs. apply rev_cons_append.
    + rewrite append_cons in Hs. injection Hs as -> ->.
      cbn [String.length split_go]. by apply IH.
Qed.

Lemma join_split sep s : sep ≠ "" → join sep (split sep s) = s.
Proof.
  intros Hsep. unfold split. apply (join_split_go sep s Hsep "" "" s eq_refl).
Qed.

Lemma str_forallb_rev_app p cur acc :
  str_forallb p (rev_app cur acc) = str_forallb p cur && str_forallb p acc.
Proof.
  revert acc. induction cur as [|c cur IH]; intros acc; simpl; [done|].
  rewrite IH. simpl. by destruct (p c), (str_forallb p cur).
Qed.

Lemma rev_app_nonempty cur acc : cur ≠ "" → rev_app cur acc ≠ "".
Proof.
  revert acc. induction cur as [|c cur IH]; intros acc Hc; [done|]. simpl.
  destruct cur as [|d cur]; [done|]. by apply IH.
Qed.

(** The words of [split_ws] are not empty and hold no whitespace. *)
Lemma split_ws_go_words cur s word :
  str_forallb (λ c, negb (is_space c)) cur = true →
  word ∈ split_ws_go cur s →
  word ≠ "" ∧ str_forallb (λ c, negb (is_space c)) word = true.
Proof.
  revert cur. induction s as [|c s IH]; intros cur Hcur; simpl.
  - destruct cur as [|d cur]; [by intros ?%elem_of_nil|].
    intros ->%list_elem_of_singleton. split.
    + by apply rev_app_nonempty.
    + unfold rev. by rewrite str_forallb_rev_app, Hcur.
  - destruct (is_space c) eqn:Hc.
    + destruct cur as [|d cur]; [by apply IH|].
      intros [->|Hin]%elem_of_cons; [|exact (IH "" eq_refl Hin)].
      split.
      * by apply rev_app_nonempty.
      * unfold rev. by rewrite str_forallb_rev_app, Hcur.
    + apply IH. simpl. by rewrite Hc, Hcur.
Qed.

Lemma split_ws_words s word :
  word ∈ split_ws s →
  word ≠ "" ∧ str_forallb (λ c, negb (is_space c)) word = true.
Proof. by apply split_ws_go_words. Qed.

End PyFacts.

(** ** Timestamps *)

Module DatetimeFacts.
Import Py PyFacts Datetime.

















End DatetimeFacts.

(** ** The article intelligence service *)

Module AIFacts.
Import Py PyFacts AIService Spec.

Lemma generate_summary_falls_back self title content n :
  falls_back self (summary_message title content n) →
  generate_summary self title content n = _fallback_summary content n.
Proof.
  unfold generate_summary. intros [Hu | Hc].
  - by rewrite Hu.
  - rewrite Hc. by destruct (available self).
Qed.

Lemma generate_key_points_falls_back self content n :
  falls_back self (key_points_message content n) →
  generate_key_points self content n = _fallback_key_points content n.
Proof.
  unfold generate_key_points. intros [Hu | Hc].
  - by rewrite Hu.
  - rewrite Hc. by destruct (available self).
Qed.

Lemma analyze_sentiment_falls_back self content :
  falls_back self (sentiment_message content) →
  analyze_sentiment self content = _fallback_sentiment.
Proof.
  unfold analyze_sentiment. intros [Hu | Hc].
  - by rewrite Hu.
  - rewrite Hc. by destruct (available self).
Qed.

Lemma fallback_summary_nonempty_string content n :
  _fallback_summary content n ≠ "".
Proof.
  unfold _fallback_summary. case_bool_decide as Hc; [done|].
  destruct (_ <=? _); [done|]. by apply append_nonempty.
Qed.

Lemma fallback_key_points_nonempty_content content n :
  content ≠ "" → _fallback_key_points content n = slice_to n (split ". " content).
Proof.
  intros Hc. unfold _fallback_key_points. case_bool_decide; [done|].
  unfold split. pose proof (split_go_nonempty ". " None 0 "" content) as Hne.
  by destruct (split_go _ _ _ _ _).
Qed.

(** One line of the response adds the field it announces, and nothing
    else; the index [1] is always there. *)
Lemma sentiment_line_keys d line :
  ∃ d', sentiment_line d line = Some d' ∧
        ∀ key, is_Some (d' !! key) ↔ is_Some (d !! key) ∨ fires key line.
Proof.
  unfold sentiment_line, fires, triggers.
  destruct (startswith "Sentiment:" (strip line)) eqn:H1.
  { destruct (startswith_app _ _ H1) as [r Hr]. rewrite Hr.
    unfold split_max. simpl. rewrite split_go_no_more. simpl.
    eexists; split; [done|]. intros key.
    rewrite lookup_insert_is_Some.
    destruct (decide ("sentiment" = key)); intuition congruence. }
  destruct (startswith "Confidence:" (strip line)) eqn:H2.
  { eexists; split; [done|]. intros key.
    rewrite lookup_insert_is_Some.
    destruct (startswith_app _ _ H2) as [r Hr]. rewrite Hr. simpl.
    destruct (decide ("confidence" = key)); intuition congruence. }
  destruct (startswith "Explanation:" (strip line)) eqn:H3.
  { destruct (startswith_app _ _ H3) as [r Hr]. rewrite Hr.
    unfold split_max. simpl. rewrite split_go_no_more. simpl.
    eexists; split; [done|]. intros key.
    rewrite lookup_insert_is_Some.
    destruct (decide ("explanation" = key)); intuition congruence. }
  eexists; split; [done|]. intuition congruence.
Qed.

Lemma sentiment_lines_keys lines d :
  ∃ r, sentiment_lines d lines = Some r ∧
       ∀ key, is_Some (r !! key)
              ↔ is_Some (d !! key) ∨ ∃ line, line ∈ lines ∧ fires key line.
Proof.
  revert d. induction lines as [|line lines IH]; intros d; simpl.
  - eexists; split; [done|]. intros key. split; [eauto|].
    intros [?|(line & Hin & _)]; [done|]. by apply elem_of_nil in Hin.
  - destruct (sentiment_line_keys d line) as (d' & -> & Hd'). simpl.
    destruct (IH d') as (r & -> & Hr).
    eexists; split; [done|]. intros key. rewrite Hr, Hd'. split.
    + intros [[?|?]|(l & Hin & Hf)]; [by left | right | right].
      * exists line. split; [apply list_elem_of_here | done].
      * exists l. split; [by apply list_elem_of_further | done].
    + intros [?|(l & Hin & Hf)]; [by left; left|].
      apply elem_of_cons in Hin as [->|Hin]; [by left; right|].
      right. eauto.
Qed.

Lemma fires_key key line :
  fires key line → key = "sentiment" ∨ key = "confidence" ∨ key = "explanation".
Proof. unfold fires. intuition. Qed.

(** C8: in unavailable mode, and whenever the remote round trip raises,
    [analyze_sentiment] returns, for every content, exactly the fixed
    result: sentiment "neutral", confidence 50 and a fixed explanation that
    is not empty, and no other field. *)
Theorem analyze_sentiment_fallback_fixed self content :
  falls_back self (sentiment_message content) →
  analyze_sentiment self content = _fallback_sentiment ∧
  analyze_sentiment self content !! "sentiment" = Some (VStr "neutral") ∧
  analyze_sentiment self content !! "confidence" = Some (VInt 50) ∧
  analyze_sentiment self content !! "explanation"
    = Some (VStr "Sentiment analysis not available without AI service") ∧
  "Sentiment analysis not available without AI service" ≠ "" ∧
  size (analyze_sentiment self content) = 3%nat.
Proof.
  intros ->%analyze_sentiment_falls_back. repeat split; done.
Qed.

Lemma analyze_sentiment_fallback_fixed_witness :
  falls_back unavailable (sentiment_message "Markets rallied today.") ∧
  analyze_sentiment unavailable "Markets rallied today." !! "confidence"
    = Some (VInt 50).
Proof.
  split; [by left|].
  apply (analyze_sentiment_fallback_fixed unavailable "Markets rallied today.").
  by left.
Defined.

(** C10: in fallback mode, [generate_summary] of the empty content is the
    fixed sentence "No content available for summary." whatever
    [max_length] is, and the fallback summary is never the empty string. *)
Theorem fallback_summary_of_empty_content self title content max_length :
  falls_back self (summary_message title content max_length) →
  (content = "" →
   generate_summary self title content max_length
     = "No content available for summary.") ∧
  generate_summary self title content max_length ≠ "".
Proof.
  intros ->%generate_summary_falls_back. split.
  - by intros ->.
  - apply fallback_summary_nonempty_string.
Qed.

Lemma fallback_summary_of_empty_content_witness :
  falls_back unavailable (summary_message "T" "" 150) ∧
  generate_summary unavailable "T" "" 150 = "No content available for summary.".
Proof.
  split; [by left|].
  by apply (fallback_summary_of_empty_content unavailable "T" "" 150); [left|].
Defined.

(** C9: in fallback mode, [generate_key_points] of the empty content is the
    one-element list ["No content available"]; of any other content it is
    the slice [[:num_points]] of the split of the content at ". ", that
    is, for [num_points >= 0], its first [num_points] fragments. *)
Theorem key_points_fallback self content num_points :
  falls_back self (key_points_message content num_points) →
  (content = "" →
   generate_key_points self content num_points = ["No content available"]) ∧
  (content ≠ "" →
   generate_key_points self content num_points
     = slice_to num_points (split ". " content) ∧
   (0 ≤ num_points →
    generate_key_points self content num_points
      = take (Z.to_nat num_points) (split ". " content))).
Proof.
  intros ->%generate_key_points_falls_back. split.
  - by intros ->.
  - intros Hc. rewrite fallback_key_points_nonempty_content by done.
    split; [done|]. intros Hn. by apply slice_to_nonneg.
Qed.

Lemma key_points_fallback_witness :
  falls_back unavailable (key_points_message "Rates rose. Shares fell. Gold held." 2) ∧
  generate_key_points unavailable "Rates rose. Shares fell. Gold held." 2
    = ["Rates rose"; "Shares fell"].
Proof.
  split; [by left|].
  pose proof (key_points_fallback unavailable
                "Rates rose. Shares fell. Gold held." 2) as H.
  destruct H as [_ H]; [by left|].
  destruct H as [_ H]; [discriminate|].
  rewrite H; [reflexivity | lia].
Defined.

(** C5, as stated, fails at the empty content: its word count, 0, is at
    most [max_length = 3], and the summary is not the content. *)
Lemma summarize_empty_content_changed :
  falls_back unavailable (summary_message "T" "" 3) ∧
  Z.of_nat (length (split_ws "")) ≤ 3 ∧
  generate_summary unavailable "T" "" 3 ≠ "".
Proof. split; [by left|]. split; [simpl; lia | discriminate]. Qed.

(** C5, amended: in fallback mode and for a content that is not empty,
    [generate_summary] returns the content unchanged when it has at most
    [max_length] words, and otherwise the slice [[:max_length]] of its words
    (for [max_length >= 0] the first [max_length] words) joined by single
    spaces and followed by "..."; so the five words of the example, cut at
    3, give "one two three...". *)
Theorem fallback_summary_of_content self title content max_length :
  falls_back self (summary_message title content max_length) →
  content ≠ "" →
  let words := split_ws content in
  let summary := generate_summary self title content max_length in
  (Z.of_nat (length words) ≤ max_length → summary = content) ∧
  (max_length < Z.of_nat (length words) →
   summary = join " " (slice_to max_length words) +:+ "..." ∧
   (0 ≤ max_length →
    summary = join " " (take (Z.to_nat max_length) words) +:+ "...")) ∧
  (∀ c m, generate_summary {| client := c; model_id := m; available := false |}
            "T" "one two three four five" 3 = "one two three...").
Proof.
  intros ->%generate_summary_falls_back Hc. simpl.
  unfold _fallback_summary. case_bool_decide; [done|].
  split; [|split; [|reflexivity]].
  - intros Hle. by destruct (Z.leb_spec (Z.of_nat (length (split_ws content))) max_length); [|lia].
  - intros Hlt. destruct (Z.leb_spec (Z.of_nat (length (split_ws content))) max_length); [lia|].
    split; [done|]. intros Hn. by rewrite slice_to_nonneg.
Qed.

Lemma fallback_summary_of_content_witness :
  falls_back unavailable (summary_message "T" "one two three four five" 3) ∧
  "one two three four five" ≠ "" ∧
  generate_summary unavailable "T" "one two three four five" 3
    = "one two three...".
Proof.
  split; [by left|]. split; [discriminate|].
  pose proof (fallback_summary_of_content unavailable "T"
                "one two three four five" 3) as H.
  destruct H as (_ & H & _); [by left | discriminate |].
  destruct H as [_ H]; [simpl; lia|].
  rewrite H; [reflexivity | lia].
Defined.

(** C2, as stated, fails in available mode: a response in free prose
    gives a result with none of the three fields. *)
Lemma sentiment_of_prose_has_no_field :
  let result := analyze_sentiment (answering "The piece reads as upbeat.")
                  "Markets rallied today." in
  result !! "sentiment" = None ∧
  result !! "confidence" = None ∧
  result !! "explanation" = None.
Proof. vm_compute. done. Qed.

(** C2, amended: a result of [analyze_sentiment] has no field besides
    sentiment, confidence and explanation; in fallback mode all three are
    present; in available mode, on the response text of the model, a field
    is present exactly when a line of the response, stripped, starts with
    the label of the field. *)
Theorem sentiment_fields_present self content :
  (falls_back self (sentiment_message content) →
   ∀ key, is_Some (analyze_sentiment self content !! key)
          ↔ key = "sentiment" ∨ key = "confidence" ∨ key = "explanation") ∧
  (∀ text, available self = true →
           chat self (sentiment_message content) = Some text →
           ∀ key, is_Some (analyze_sentiment self content !! key)
                  ↔ announced key text).
Proof.
  split.
  - intros ->%analyze_sentiment_falls_back key. unfold _fallback_sentiment.
    rewrite !lookup_insert_is_Some, lookup_empty, is_Some_alt.
    destruct (decide ("sentiment" = key)), (decide ("confidence" = key)),
      (decide ("explanation" = key)); intuition congruence.
  - intros text Ha Hc key. unfold analyze_sentiment, announced.
    rewrite Ha, Hc. simpl.
    destruct (sentiment_lines_keys (split nl (strip text)) ∅) as (r & -> & Hr).
    rewrite Hr, lookup_empty, is_Some_alt. intuition.
Qed.

Lemma sentiment_fields_present_witness :
  (falls_back unavailable (sentiment_message "Markets rallied today.") ∧
   is_Some (analyze_sentiment unavailable "Markets rallied today."
              !! "explanation")) ∧
  (available (answering "Sentiment: Positive") = true ∧
   chat (answering "Sentiment: Positive")
     (sentiment_message "Markets rallied today.")
     = Some "Sentiment: Positive" ∧
   (is_Some (analyze_sentiment (answering "Sentiment: Positive")
               "Markets rallied today." !! "confidence")
    ↔ announced "confidence" "Sentiment: Positive")).
Proof.
  split.
  - split; [by left|].
    apply (sentiment_fields_present unavailable "Markets rallied today.");
      [by left | by right; right].
  - split; [reflexivity|]. split; [reflexivity|].
    by apply (sentiment_fields_present (answering "Sentiment: Positive")
                "Markets rallied today.").
Defined.

End AIFacts.

(** ** The feed ingestion service *)

Module RSSFacts.
Import Py PyFacts Datetime DatetimeFacts Bs4 RSSService Spec.

(** *** Markup *)






(** *** Sanitization *)





(** *** Dates *)



(** The loop stops at some format, or runs through all of them. *)
Lemma first_parsed_cases w date_string fmts :
  (∃ fmt dt, first_match w date_string fmts fmt dt) ∨ no_match w date_string fmts.
Proof.
  induction fmts as [|f fmts IH].
  - right. constructor.
  - destruct (strptime (tzname w) (daylight w) date_string f) as [dt|] eqn:Hf.
    + left. exists f, dt, [], fmts. by repeat split.
    + destruct IH as [(fmt & dt & pre & post & -> & Hpre & Hfmt) | Hno].
      * left. exists fmt, dt, (f :: pre), post. repeat split; [|done].
        by constructor.
      * right. by constructor.
Qed.





(** *** Articles *)

Lemma text_field_chain w k1 k2 item :
  (if dict_has item k1 then _clean_html w (dict_get item k1 VNone)
   else if dict_has item k2 then _clean_html w (dict_get item k2 VNone)
   else Some (VStr ""))
  = text_field w [k1; k2] item.
Proof.
  unfold text_field, dict_has, dict_get. simpl.
  destruct (item !! k1) as [v1|].
  { by rewrite bool_decide_eq_true_2 by eauto. }
  rewrite bool_decide_eq_false_2 by (by intros [? ?]).
  destruct (item !! k2) as [v2|].
  { by rewrite bool_decide_eq_true_2 by eauto. }
  by rewrite bool_decide_eq_false_2 by (by intros [? ?]).
Qed.

Ltac lookup_inserts :=
  repeat first [ rewrite lookup_insert_eq
               | rewrite lookup_insert_ne by discriminate
               | rewrite lookup_empty ].


Lemma parse_article_is_Some w item :
  is_Some (_parse_article_xml w (VDict item))
  ↔ is_Some (text_field w ["description"; "summary"] item) ∧
    is_Some (text_field w ["content:encoded"; "content"] item).
Proof.
  unfold _parse_article_xml. rewrite !text_field_chain.
  destruct (text_field w ["description"; "summary"] item) as [summary|];
    [|split; [by intros [? ?] | by intros [[? ?] _]]].
  destruct (text_field w ["content:encoded"; "content"] item) as [content|];
    [|split; [by intros [? ?] | by intros [_ [? ?]]]].
  cbn [mbind option_bind].
  destruct (truthy _); split; eauto.
Qed.

Lemma parse_article_not_dict w item :
  (∀ d, item ≠ VDict d) → _parse_article_xml w item = None.
Proof. intros H. destruct item; try done. by destruct (H d). Qed.

(** *** Fetching *)

Lemma fetch_exit_serves w self url channel :
  serves w self url channel →
  fetch_exit_of w self url = channel_result w url channel.
Proof.
  intros (body & feed_data & Hget & Hparse & rss & Hrss & Hchannel).
  unfold fetch_exit_of. rewrite Hget, Hparse, Hrss. simpl.
  unfold dict_has. rewrite bool_decide_eq_true_2 by eauto.
  by rewrite Hchannel.
Qed.

(** A result comes only out of a document of the shape [rss.channel]. *)
Lemma fetch_Some_serves w self url result :
  fetch_rss_feed w self url = Some result →
  ∃ channel, serves w self url channel
             ∧ channel_result w url channel = Returned result.
Proof.
  unfold fetch_rss_feed, fetch_exit_of, serves, has_channel.
  destruct (session_get w url (timeout self)) as [body|]; [|done].
  destruct (xmltodict_parse w body) as [feed_data|] eqn:Hparse; [|done].
  destruct (feed_data !! "rss") as [rss|] eqn:Hrss; [|done].
  destruct (py_in "channel" rss) as [[|]|]; [|done..].
  destruct rss as [| | | | |r]; try done.
  destruct (r !! "channel") as [[| | | | |channel]|] eqn:Hch; try done.
  destruct (channel_result w url channel) as [res| | |] eqn:Hres; try done.
  intros [= <-]. exists channel. split; [|done].
  exists body, feed_data. repeat split; [done|]. by exists r.
Qed.

Lemma channel_result_items w url channel item_value n :
  py_len item_value = Some n →
  dict_get channel "item" (VList []) = item_value →
  ∃ result,
    channel_result w url channel = Returned result ∧
    feed_info_of (Some result) "total_entries" = Some (VInt (Z.of_nat n)) ∧
    articles_of (Some result)
    = Some (VDict <$> omap (_parse_article_xml w)
              (take 20 match item_value with
                       | VList l => l
                       | _ => [item_value]
                       end)).
Proof.
  intros Hlen Hitem. unfold channel_result. rewrite Hitem, Hlen.
  eexists. split; [reflexivity|].
  unfold feed_info_of, articles_of. cbn [mbind option_bind].
  lookup_inserts. split; [|done]. by lookup_inserts.
Qed.

Lemma length_omap_le {A B} (f : A → option B) (l : list A) :
  (length (omap f l) ≤ length l)%nat.
Proof.
  induction l as [|x l IH]; csimpl; [done|]. destruct (f x); csimpl; lia.
Qed.

(** Where every element has an image, [omap] keeps places and order. *)
Lemma omap_all_Some {A B} (f : A → option B) (l : list A) :
  Forall (λ x, is_Some (f x)) l →
  length (omap f l) = length l ∧ ∀ i, omap f l !! i = l !! i ≫= f.
Proof.
  induction 1 as [|x l [y Hy] _ [IHlen IHi]]; csimpl.
  - split; [done|]. by intros [|i].
  - rewrite Hy. csimpl. split; [by rewrite IHlen|].
    intros [|i]; csimpl; [done | apply IHi].
Qed.








(** C3: on the specification's example, a channel whose one item is a bare
    object with the two fields title and pubDate, the article list has the
    one article, with the date parsed, and [total_entries] is 2, the
    number of fields of the item, where the claim has 1. *)
Theorem single_item_feed_total_entries :
  let result :=
    fetch_rss_feed (world_serving (rss_document {["item" := VDict item_A]}))
      init feed_url in
  feed_info_of result "total_entries" = Some (VInt 2) ∧
  length <$> articles_of result = Some 1%nat ∧
  article_at result 0 "title" = Some (VStr "A") ∧
  article_at result 0 "published_date" = Some (VStr "2024-01-01T10:00:00").
Proof. by vm_compute. Qed.

(** For any channel whose item is a bare object, [total_entries] is the
    number of keys of that object. *)
Lemma bare_item_total_entries w self url channel item :
  serves w self url channel →
  channel !! "item" = Some (VDict item) →
  feed_info_of (fetch_rss_feed w self url) "total_entries"
    = Some (VInt (Z.of_nat (size item))) ∧
  articles_of (fetch_rss_feed w self url)
    = Some (VDict <$> omap (_parse_article_xml w) [VDict item]).
Proof.
  intros Hs Hitem. unfold fetch_rss_feed. rewrite (fetch_exit_serves _ _ _ _ Hs).
  destruct (channel_result_items w url channel (VDict item) (size item))
    as (result & -> & Hinfo & Harts); [done | |done].
  unfold dict_get. by rewrite Hitem.
Qed.





(** A field made from a repeated element is no string: on the list that
    [xmltodict] gives for two description elements the parser raises, and
    the summary is the list itself, cut at 500 elements, whatever the
    length of its strings. *)
Lemma repeated_description_summary_is_list :
  let w := world_serving ∅ in
  let parts := [VStr "<script>alert(1)</script>"; VStr "Rates rose."] in
  BeautifulSoup w (VList parts) = None ∧
  _parse_article_xml w (VDict {["description" := VList parts]})
    ≫= (λ article : gmap string value, article !! "summary")
  = Some (VList parts).
Proof. split; vm_compute; reflexivity. Qed.





(** C7, as stated, fails when an item among the first 20 does not parse:
    of 21 items, the first an empty element, 19 articles come out. *)
Lemma empty_item_among_first_twenty :
  let result :=
    fetch_rss_feed (world_serving (rss_document {["item" := VList items_21]}))
      init feed_url in
  length items_21 = 21%nat ∧ length <$> articles_of result = Some 19%nat.
Proof. split; vm_compute; reflexivity. Qed.

(** C7, amended: for a channel with more than 20 items the fetch returns
    a result, and its articles are those of the first 20 items that
    parse, in document order: at most 20, whatever the items after the
    twentieth are; when each of the first 20 items parses there are
    exactly 20, the article at each place made from the item at that
    place. *)
Theorem fetch_keeps_first_twenty w self url channel items :
  serves w self url channel →
  channel !! "item" = Some (VList items) →
  (20 < length items)%nat →
  let articles := omap (_parse_article_xml w) (take 20 items) in
  articles_of (fetch_rss_feed w self url) = Some (VDict <$> articles) ∧
  (length articles ≤ 20)%nat ∧
  (Forall (λ item, is_Some (_parse_article_xml w item)) (take 20 items) →
   length articles = 20%nat ∧
   ∀ i, (i < 20)%nat → articles !! i = items !! i ≫= _parse_article_xml w).
Proof.
  intros Hs Hitem Hlen articles. split; [|split].
  - unfold fetch_rss_feed. rewrite (fetch_exit_serves _ _ _ _ Hs).
    destruct (channel_result_items w url channel (VList items) (length items))
      as (result & -> & _ & Harts); [done | |done].
    unfold dict_get. by rewrite Hitem.
  - etrans; [apply length_omap_le|]. rewrite length_take. lia.
  - intros Hall. destruct (omap_all_Some _ _ Hall) as [Hl Hi].
    split; [unfold articles; rewrite Hl, length_take; lia|].
    intros i Hi20. unfold articles. rewrite Hi.
    by rewrite lookup_take_lt by done.
Qed.

Lemma fetch_keeps_first_twenty_witness :
  let channel : gmap string value := {["item" := VList items_25]} in
  let w := world_serving (rss_document channel) in
  serves w init feed_url channel ∧
  channel !! "item" = Some (VList items_25) ∧
  (20 < length items_25)%nat ∧
  articles_of (fetch_rss_feed w init feed_url)
    = Some (VDict <$> omap (_parse_article_xml w) (take 20 items_25)).
Proof.
  intros channel w.
  assert (serves w init feed_url channel) as Hs.
  { exists "<rss/>", (rss_document channel).
    split; [reflexivity|]. split; [reflexivity|].
    exists {["channel" := VDict channel]}. split; reflexivity. }
  assert ((20 < length items_25)%nat) as Hlen by (vm_compute; lia).
  split; [exact Hs|]. split; [reflexivity|]. split; [exact Hlen|].
  by apply (fetch_keeps_first_twenty w init feed_url channel items_25).
Defined.

End RSSFacts.

(** ** More on the Python primitives *)

Module PyMore.
Import Py PyFacts Spec Shape.

Lemma rev_app_rev s acc : rev_app s acc = rev s +:+ acc.
Proof. unfold rev. by rewrite rev_app_append. Qed.

Lemma rev_snoc c s : rev (String c s) = rev s +:+ String c "".
Proof. unfold rev at 1. simpl. apply rev_app_rev. Qed.

Lemma rev_append a b : rev (a +:+ b) = rev b +:+ rev a.
Proof.
  induction a as [|c a IH].
  - by rewrite append_empty_l, append_empty_r.
  - by rewrite append_cons, !rev_snoc, IH, append_assoc.
Qed.

Lemma rev_involutive s : rev (rev s) = s.
Proof.
  induction s as [|c s IH]; [done|].
  by rewrite rev_snoc, rev_append, IH.
Qed.

Lemma rev_empty s : rev s = "" → s = "".
Proof. intros H. by rewrite <- (rev_involutive s), H. Qed.

Lemma str_forallb_rev p s : str_forallb p (rev s) = str_forallb p s.
Proof. unfold rev. rewrite str_forallb_rev_app. simpl. apply andb_true_r. Qed.

Lemma str_forallb_append p a b :
  str_forallb p (a +:+ b) = str_forallb p a && str_forallb p b.
Proof.
  induction a as [|c a IH]; [done|]. rewrite append_cons. simpl.
  by rewrite IH, andb_assoc.
Qed.

(** *** Stripping *)

Lemma lstrip_starts_clean s : starts_clean (lstrip s) = true.
Proof.
  induction s as [|c s IH]; [done|]. simpl.
  destruct (is_space c) eqn:Hc; [done|]. simpl. by rewrite Hc.
Qed.

Lemma lstrip_all_space a : str_forallb is_space a = true → lstrip a = "".
Proof.
  induction a as [|c a IH]; [done|]. simpl.
  intros [-> Ha]%andb_true_iff. by apply IH.
Qed.

Lemma lstrip_not_all_space a : str_forallb is_space a = false → lstrip a ≠ "".
Proof.
  induction a as [|c a IH]; [done|]. simpl.
  destruct (is_space c); [apply IH | done].
Qed.

Lemma lstrip_append a b :
  lstrip (a +:+ b)
  = if str_forallb is_space a then lstrip b else lstrip a +:+ b.
Proof.
  induction a as [|c a IH]; [done|]. rewrite append_cons. simpl.
  destruct (is_space c); [apply IH | done].
Qed.

(** [rstrip] from the left: a character stays when something stays after
    it, or when it is no whitespace. *)
Lemma rstrip_cons c t :
  rstrip (String c t)
  = match rstrip t with
    | EmptyString => if is_space c then "" else String c ""
    | _ => String c (rstrip t)
    end.
Proof.
  unfold rstrip. rewrite rev_snoc, lstrip_append.
  destruct (str_forallb is_space (rev t)) eqn:Ht.
  - rewrite (lstrip_all_space _ Ht). simpl. by destruct (is_space c).
  - pose proof (lstrip_not_all_space _ Ht) as Hne.
    rewrite rev_append.
    destruct (rev (lstrip (rev t))) eqn:Hr; [by apply rev_empty in Hr|].
    done.
Qed.

Lemma rstrip_head c r t : rstrip t = String c r → ∃ t', t = String c t'.
Proof.
  destruct t as [|d t]; [done|]. rewrite rstrip_cons.
  destruct (rstrip t); [destruct (is_space d)|]; intros [= <- _]; eauto.
Qed.

Lemma ends_clean_cons c s :
  ends_clean (String c s)
  = match s with EmptyString => negb (is_space c) | _ => ends_clean s end.
Proof.
  unfold ends_clean. rewrite rev_snoc. destruct s as [|d s]; [done|].
  destruct (rev (String d s)) eqn:Hr; [by apply rev_empty in Hr|]. done.
Qed.

Lemma rstrip_ends_clean s : ends_clean (rstrip s) = true.
Proof.
  unfold ends_clean, rstrip. rewrite rev_involutive. apply lstrip_starts_clean.
Qed.

Lemma rstrip_starts_clean s : starts_clean s = true → starts_clean (rstrip s) = true.
Proof.
  destruct s as [|c s]; [done|]. simpl. intros Hc. rewrite rstrip_cons.
  destruct (rstrip s); [|done]. destruct (is_space c) eqn:Hs; [done|].
  simpl. by rewrite Hs.
Qed.

(** A stripped string has no whitespace at either end. *)
Lemma strip_clean s : starts_clean (strip s) = true ∧ ends_clean (strip s) = true.
Proof.
  unfold strip. split.
  - apply rstrip_starts_clean, lstrip_starts_clean.
  - apply rstrip_ends_clean.
Qed.

Lemma lstrip_forallb p s : str_forallb p s = true → str_forallb p (lstrip s) = true.
Proof.
  induction s as [|c s IH]; [done|]. simpl.
  intros [Hc Hs]%andb_true_iff. destruct (is_space c); [by apply IH|].
  simpl. by rewrite Hc, Hs.
Qed.

Lemma rstrip_forallb p s : str_forallb p s = true → str_forallb p (rstrip s) = true.
Proof.
  intros H. unfold rstrip. rewrite str_forallb_rev. apply lstrip_forallb.
  by rewrite str_forallb_rev.
Qed.

Lemma strip_forallb p s : str_forallb p s = true → str_forallb p (strip s) = true.
Proof. intros H. by apply rstrip_forallb, lstrip_forallb. Qed.

(** *** Single spacing *)

Lemma startswith_space_cons c s :
  startswith " " (String c s) = bool_decide (c = " "%char).
Proof.
  cbn [startswith]. destruct (decide (" "%char = c)) as [<-|Hc].
  - by rewrite bool_decide_eq_true_2.
  - by rewrite bool_decide_eq_false_2.
Qed.

Lemma single_spaced_cons a s :
  single_spaced (String a s)
  = negb (bool_decide (a = " "%char) && startswith " " s) && single_spaced s.
Proof.
  destruct s as [|b s]; [by rewrite andb_false_r|].
  by rewrite startswith_space_cons.
Qed.

Lemma single_spaced_tail a s : single_spaced (String a s) = true → single_spaced s = true.
Proof. rewrite single_spaced_cons. by intros [_ ?]%andb_true_iff. Qed.

Lemma single_spaced_rev_app s acc :
  single_spaced (rev_app s acc)
  = single_spaced s && single_spaced acc
    && negb (startswith " " s && startswith " " acc).
Proof.
  revert acc. induction s as [|c s IH]; intros acc.
  - simpl. by rewrite andb_true_r.
  - simpl rev_app. rewrite IH, !single_spaced_cons, !startswith_space_cons.
    destruct (bool_decide (c = " "%char)), (startswith " " s),
      (startswith " " acc), (single_spaced s), (single_spaced acc); done.
Qed.

Lemma single_spaced_rev s : single_spaced (rev s) = single_spaced s.
Proof.
  unfold rev. rewrite single_spaced_rev_app. simpl.
  by rewrite !andb_true_r, andb_false_r, andb_true_r.
Qed.

Lemma lstrip_single_spaced s :
  single_spaced s = true → single_spaced (lstrip s) = true.
Proof.
  induction s as [|c s IH]; [done|]. intros H. simpl.
  destruct (is_space c); [|done]. by apply IH, (single_spaced_tail c).
Qed.

Lemma rstrip_single_spaced s :
  single_spaced s = true → single_spaced (rstrip s) = true.
Proof.
  intros H. unfold rstrip. rewrite single_spaced_rev.
  apply lstrip_single_spaced. by rewrite single_spaced_rev.
Qed.

Lemma strip_single_spaced s :
  single_spaced s = true → single_spaced (strip s) = true.
Proof. intros H. by apply rstrip_single_spaced, lstrip_single_spaced. Qed.

(** *** Fragments of a split *)

Lemma startswith_append_mono p q s :
  startswith p q = true → startswith p (q +:+ s) = true.
Proof.
  revert q. induction p as [|a p IH]; intros q; [done|].
  destruct q as [|b q]; [done|]. rewrite append_cons. simpl.
  destruct (decide (a = b)); [apply IH | done].
Qed.

Lemma contains_occurrence p x :
  contains p x = true → ∃ a b, x = a +:+ b ∧ startswith p b = true.
Proof.
  induction x as [|c x IH]; simpl.
  - rewrite orb_false_r. intros H. by exists "", "".
  - intros [H|H]%orb_true_iff.
    + by exists "", (String c x).
    + destruct (IH H) as (a & b & -> & Hb). by exists (String c a), b.
Qed.

Lemma append_snoc_split x c a b :
  x +:+ String c "" = a +:+ b → b ≠ "" →
  ∃ b0, b = b0 +:+ String c "" ∧ x = a +:+ b0.
Proof.
  revert x. induction a as [|d a IH]; intros x H Hb.
  - rewrite append_empty_l in H. exists x. by rewrite append_empty_l.
  - rewrite append_cons in H. destruct x as [|e x].
    + rewrite append_empty_l in H. injection H as _ H.
      destruct a; [by rewrite append_empty_l in H | by rewrite append_cons in H].
    + rewrite append_cons in H. injection H as -> H.
      destruct (IH x H Hb) as (b0 & -> & ->). by exists b0.
Qed.

(** While a fragment is read, the separator starts nowhere in it. *)
Lemma split_go_fragment sep skip cur s f :
  sep ≠ "" →
  (∀ a b, rev cur = a +:+ b → b ≠ "" → startswith sep (b +:+ s) = false) →
  (skip ≠ 0%nat → cur = "") →
  f ∈ split_go sep None skip cur s →
  contains sep f = false.
Proof.
  intros Hsep. revert skip cur.
  assert (∀ cur s, (∀ a b, rev cur = a +:+ b → b ≠ "" →
                           startswith sep (b +:+ s) = false) →
                   contains sep (rev cur) = false) as Hemit.
  { intros cur t Hfree. destruct (contains sep (rev cur)) eqn:Hc; [|done].
    destruct (contains_occurrence _ _ Hc) as (a & b & Hab & Hb).
    assert (b ≠ "") as Hne.
    { intros ->. by destruct sep. }
    pose proof (startswith_append_mono _ _ t Hb) as Hb'.
    by rewrite (Hfree a b Hab Hne) in Hb'. }
  induction s as [|c s IH]; intros skip cur Hfree Hskip.
  - simpl. intros ->%list_elem_of_singleton. by apply (Hemit cur "").
  - cbn [split_go]. destruct skip as [|k].
    + destruct (startswith sep (String c s)) eqn:Hm.
      * intros [->|Hin]%elem_of_cons; [by apply (Hemit cur (String c s))|].
        revert Hin. apply IH; [|done].
        intros a b Hab Hb. destruct a, b; done.
      * apply IH; [|done]. intros a b Hab Hb. rewrite rev_snoc in Hab.
        destruct (append_snoc_split _ _ _ _ Hab Hb) as (b0 & -> & Hcur).
        rewrite append_assoc, append_cons, append_empty_l.
        destruct b0 as [|d b0]; [by rewrite append_empty_l|].
        by apply (Hfree a).
    + rewrite (Hskip ltac:(done)). apply IH; [|done].
      intros a b Hab Hb. destruct a, b; done.
Qed.

(** No fragment of a split holds the separator. *)
Lemma split_fragment_free sep s f :
  sep ≠ "" → f ∈ split sep s → contains sep f = false.
Proof.
  intros Hsep. apply split_go_fragment; [done| |done].
  intros a b Hab Hb. destruct a, b; done.
Qed.

Lemma split_go_forallb p sep m skip cur s f :
  str_forallb p cur = true → str_forallb p s = true →
  f ∈ split_go sep m skip cur s → str_forallb p f = true.
Proof.
  revert m skip cur. induction s as [|c s IH]; intros m skip cur Hcur Hs.
  - simpl. intros ->%list_elem_of_singleton. by rewrite str_forallb_rev.
  - simpl in Hs. apply andb_true_iff in Hs as [Hc Hs]. cbn [split_go].
    assert (str_forallb p (String c cur) = true) as Hpush
      by (simpl; by rewrite Hc, Hcur).
    destruct skip as [|k]; [|by apply IH].
    destruct m as [[|j]|]; [by apply IH| |];
      (destruct (startswith sep (String c s)); [|by apply IH];
       intros [->|Hin]%elem_of_cons;
       [by rewrite str_forallb_rev | by eapply (IH _ _ ""), Hin]).
Qed.

Lemma split_forallb p sep s f :
  str_forallb p s = true → f ∈ split sep s → str_forallb p f = true.
Proof. intros Hs. by apply split_go_forallb. Qed.

Lemma double_space_free x : contains "  " x = false → single_spaced x = true.
Proof.
  induction x as [|a x IH]; [done|]. cbn [contains].
  intros [Hh Ht]%orb_false_iff. rewrite single_spaced_cons, (IH Ht), andb_true_r.
  cbn [startswith] in Hh. destruct (decide (" "%char = a)) as [<-|Ha].
  - rewrite (bool_decide_eq_true_2 (" "%char = " "%char)) by done.
    destruct x as [|b x]; [done|]. rewrite startswith_space_cons.
    cbn [startswith] in Hh. destruct (decide (" "%char = b)) as [<-|Hb]; [done|].
    by rewrite bool_decide_eq_false_2.
  - by rewrite bool_decide_eq_false_2.
Qed.

(** The lines of [splitlines] hold no line boundary. *)
Lemma splitlines_go_one_line n cur s f :
  (String.length s ≤ n)%nat →
  one_line cur = true →
  f ∈ splitlines_go cur s → one_line f = true.
Proof.
  unfold one_line. revert cur s.
  induction n as [|n IH]; intros cur s Hn Hcur.
  - destruct s; [|simpl in Hn; lia]. simpl.
    destruct cur; [by intros ?%elem_of_nil|].
    intros ->%list_elem_of_singleton. by rewrite str_forallb_rev.
  - destruct s as [|c s].
    { simpl. destruct cur; [by intros ?%elem_of_nil|].
      intros ->%list_elem_of_singleton. by rewrite str_forallb_rev. }
    simpl in Hn. cbn [splitlines_go].
    destruct (is_linebreak c) eqn:Hc.
    + destruct s as [|d s].
      { intros ->%list_elem_of_singleton. by rewrite str_forallb_rev. }
      simpl in Hn.
      destruct ((nat_of_ascii c =? 13)%nat && (nat_of_ascii d =? 10)%nat);
        (intros [->|Hin]%elem_of_cons; [by rewrite str_forallb_rev|]);
        (eapply (IH ""); [|done|exact Hin]); simpl; lia.
    + apply IH; [lia|]. simpl. by rewrite Hc, Hcur.
Qed.

Lemma splitlines_one_line s f : f ∈ splitlines_go "" s → one_line f = true.
Proof. by apply (splitlines_go_one_line (String.length s)). Qed.

(** *** Joining *)

Lemma starts_clean_append a b : a ≠ "" → starts_clean (a +:+ b) = starts_clean a.
Proof. by destruct a. Qed.

Lemma ends_clean_append a b : b ≠ "" → ends_clean (a +:+ b) = ends_clean b.
Proof.
  intros Hb. unfold ends_clean. rewrite rev_append.
  destruct (rev b) eqn:Hr; [by apply rev_empty in Hr|]. done.
Qed.

Lemma single_spaced_append a b :
  single_spaced a = true → single_spaced b = true →
  a ≠ "" → ends_clean a = true →
  single_spaced (a +:+ b) = true.
Proof.
  induction a as [|x a IH]; [done|]. intros Ha Hb _ He.
  rewrite append_cons, single_spaced_cons. rewrite single_spaced_cons in Ha.
  apply andb_true_iff in Ha as [Hx Ha]. rewrite ends_clean_cons in He.
  destruct a as [|y a].
  - rewrite append_empty_l, Hb, andb_true_r.
    destruct (bool_decide (x = " "%char)) eqn:Hsp; [|done].
    apply bool_decide_eq_true in Hsp. by subst x.
  - rewrite IH by done. rewrite append_cons, startswith_space_cons.
    rewrite startswith_space_cons in Hx. by rewrite Hx.
Qed.

(** Clean, single-spaced, non-empty chunks joined by one space. *)
Lemma join_space_shape chunks :
  Forall (λ chunk, chunk ≠ "" ∧ starts_clean chunk = true
                   ∧ ends_clean chunk = true
                   ∧ single_spaced chunk = true) chunks →
  starts_clean (join " " chunks) = true ∧
  ends_clean (join " " chunks) = true ∧
  single_spaced (join " " chunks) = true ∧
  (chunks ≠ [] → join " " chunks ≠ "").
Proof.
  induction 1 as [|x l (Hx & Hs & He & Hd) _ (IHs & IHe & IHd & IHn)]; [done|].
  destruct l as [|y l]; [done|].
  rewrite join_cons by done.
  assert (join " " (y :: l) ≠ "") as Hne by by apply IHn.
  assert (single_spaced (" " +:+ join " " (y :: l)) = true) as Hd'.
  { rewrite append_cons, append_empty_l, single_spaced_cons, IHd, andb_true_r.
    destruct (join " " (y :: l)) as [|c j] eqn:Hj; [done|].
    rewrite startswith_space_cons. simpl in IHs.
    destruct (bool_decide (c = " "%char)) eqn:Hc; [|done].
    apply bool_decide_eq_true in Hc. by subst c. }
  repeat split.
  - by rewrite starts_clean_append.
  - rewrite ends_clean_append by (by rewrite append_cons).
    rewrite ends_clean_append; done.
  - by apply single_spaced_append.
  - intros _. by destruct x.
Qed.

Lemma join_forallb p sep l :
  str_forallb p sep = true →
  Forall (λ x, str_forallb p x = true) l →
  str_forallb p (join sep l) = true.
Proof.
  intros Hsep. induction 1 as [|x l Hx _ IH]; [done|].
  destruct l as [|y l]; [done|]. rewrite join_cons by done.
  by rewrite !str_forallb_append, Hx, Hsep, IH.
Qed.

(** *** Prefixes *)

Lemma str_take_forallb p n s :
  str_forallb p s = true → str_forallb p (str_take n s) = true.
Proof.
  revert s. induction n as [|n IH]; intros [|c s]; try done. simpl.
  intros [-> Hs]%andb_true_iff. by apply IH.
Qed.

Lemma str_take_starts_clean n s :
  starts_clean s = true → starts_clean (str_take n s) = true.
Proof. by destruct n, s. Qed.

Lemma str_take_single_spaced n s :
  single_spaced s = true → single_spaced (str_take n s) = true.
Proof.
  revert s. induction n as [|n IH]; intros [|c s]; try done.
  rewrite single_spaced_cons. intros [Hc Hs]%andb_true_iff.
  cbn [str_take]. rewrite single_spaced_cons, IH, andb_true_r by done.
  destruct n, s; try done; cbn [str_take];
    by rewrite ?andb_false_r, ?startswith_space_cons in *.
Qed.

(** *** Words *)

Lemma split_ws_go_word cur w rest :
  str_forallb (λ c, negb (is_space c)) w = true →
  split_ws_go cur (w +:+ rest) = split_ws_go (rev_app w cur) rest.
Proof.
  revert cur. induction w as [|a w IH]; intros cur; [done|].
  rewrite append_cons. simpl. intros [Ha Hw]%andb_true_iff.
  apply negb_true_iff in Ha. rewrite Ha. by apply IH.
Qed.

Lemma split_ws_one_word w : is_word w → split_ws w = [w].
Proof.
  intros [Hne Hw]. unfold split_ws.
  rewrite <- (append_empty_r w) at 1. rewrite split_ws_go_word by done.
  simpl. fold (rev w). destruct (rev w) eqn:Hr; [by apply rev_empty in Hr|].
  by rewrite <- Hr, rev_involutive.
Qed.

Lemma is_word_append a b : is_word a → is_word b → is_word (a +:+ b).
Proof.
  intros [Ha Hwa] [Hb Hwb]. split.
  - by destruct a.
  - by rewrite str_forallb_append, Hwa, Hwb.
Qed.

(** Words joined by single spaces split back into those words; a mark
    without whitespace put at the end goes to the last word. *)
Lemma split_ws_join_mark mark ws :
  is_word mark → Forall is_word ws →
  split_ws (join " " ws +:+ mark) = mark_last mark ws.
Proof.
  intros Hm. induction 1 as [|x l Hx Hl IH].
  - simpl. rewrite append_empty_l. by apply split_ws_one_word.
  - destruct l as [|y l].
    + simpl. by apply split_ws_one_word, is_word_append.
    + rewrite join_cons by done.
      change (mark_last mark (x :: y :: l)) with (x :: mark_last mark (y :: l)).
      rewrite <- IH.
      unfold split_ws. rewrite !append_assoc.
      rewrite split_ws_go_word by apply Hx.
      rewrite append_cons, append_empty_l. simpl.
      fold (rev x). destruct (rev x) eqn:Hr.
      { apply rev_empty in Hr. by destruct Hx. }
      by rewrite <- Hr, rev_involutive.
Qed.

Lemma split_ws_join ws : Forall is_word ws → ws ≠ [] → split_ws (join " " ws) = ws.
Proof.
  induction 1 as [|x l Hx Hl IH]; [done|]. intros _.
  destruct l as [|y l]; [by apply split_ws_one_word|].
  rewrite join_cons by done. unfold split_ws.
  rewrite split_ws_go_word by apply Hx.
  rewrite append_cons, append_empty_l. simpl.
  fold (rev x). destruct (rev x) eqn:Hr.
  { apply rev_empty in Hr. by destruct Hx. }
  rewrite <- Hr, rev_involutive. f_equal. by apply IH.
Qed.

Lemma split_ws_is_word s : Forall is_word (split_ws s).
Proof. apply Forall_forall. intros w Hw. exact (split_ws_words s w Hw). Qed.

(** *** Stripping twice, and cancelling *)











End PyMore.

(** ** More on the article intelligence service *)

Module AIMore.
Import Py PyFacts PyMore AIService Spec Shape AIFacts.

(** X1: in fallback mode, when the content has more words than
    [max_length >= 0], the summary splits into the first [max_length]
    words of the content, unchanged and in order, with "..." attached to
    the last of them; for [max_length = 0] it is the one word "...". *)
Theorem fallback_summary_words self title content max_length :
  falls_back self (summary_message title content max_length) →
  0 ≤ max_length < Z.of_nat (length (split_ws content)) →
  split_ws (generate_summary self title content max_length)
  = mark_last "..." (take (Z.to_nat max_length) (split_ws content)).
Proof.
  intros Hf [Hn Hlt]. rewrite (generate_summary_falls_back _ _ _ _ Hf).
  unfold _fallback_summary. case_bool_decide as Hc.
  { subst content. simpl in Hlt. lia. }
  destruct (Z.leb_spec (Z.of_nat (length (split_ws content))) max_length); [lia|].
  rewrite slice_to_nonneg by done.
  apply split_ws_join_mark; [by split|].
  apply Forall_take, split_ws_is_word.
Qed.

Lemma fallback_summary_words_witness :
  falls_back unavailable (summary_message "T" "one two  three four five" 3) ∧
  0 ≤ 3 < Z.of_nat (length (split_ws "one two  three four five")) ∧
  split_ws (generate_summary unavailable "T" "one two  three four five" 3)
  = ["one"; "two"; "three..."].
Proof.
  split; [by left|]. split; [vm_compute; split; [discriminate | reflexivity]|].
  rewrite (fallback_summary_words unavailable "T" "one two  three four five" 3).
  - reflexivity.
  - by left.
  - vm_compute. split; [discriminate | reflexivity].
Defined.

(** X2: in fallback mode, for a content that is not empty and
    [num_points >= 0], the key points are the first fragments of the
    content split at ". ", in their order: the fragments are the key
    points followed by the fragments left out, which are none when
    [num_points] covers them; the key points are as many as [num_points]
    allows; no fragment, kept or left out, holds the separator ". "; and
    joining them all with ". " gives the content back. *)
Theorem fallback_key_points_fragments self content num_points :
  falls_back self (key_points_message content num_points) →
  content ≠ "" →
  0 ≤ num_points →
  let points := generate_key_points self content num_points in
  ∃ left_out,
    split ". " content = points ++ left_out ∧
    length points
    = Nat.min (Z.to_nat num_points) (length (split ". " content)) ∧
    (Z.of_nat (length (split ". " content)) ≤ num_points → left_out = []) ∧
    (∀ fragment, fragment ∈ points ++ left_out →
                 contains ". " fragment = false) ∧
    join ". " (points ++ left_out) = content.
Proof.
  intros Hf Hc Hn. simpl.
  rewrite (generate_key_points_falls_back _ _ _ Hf).
  rewrite fallback_key_points_nonempty_content, slice_to_nonneg by done.
  exists (drop (Z.to_nat num_points) (split ". " content)).
  rewrite take_drop. split; [done|]. split; [apply length_take|]. split.
  - intros Hall. apply drop_ge. lia.
  - split; [|by apply join_split].
    intros fragment Hin. by eapply split_fragment_free.
Qed.

Lemma fallback_key_points_fragments_witness :
  falls_back unavailable (key_points_message "Rates rose. Shares fell. Oil too" 2) ∧
  "Rates rose. Shares fell. Oil too" ≠ "" ∧ 0 ≤ 2 ∧
  ∃ left_out,
    split ". " "Rates rose. Shares fell. Oil too"
    = generate_key_points unavailable "Rates rose. Shares fell. Oil too" 2
      ++ left_out ∧
    length (generate_key_points unavailable "Rates rose. Shares fell. Oil too" 2)
    = 2%nat.
Proof.
  split; [by left|]. split; [discriminate|]. split; [lia|].
  destruct (fallback_key_points_fragments unavailable
              "Rates rose. Shares fell. Oil too" 2)
    as (left_out & Hsplit & Hlen & _); [by left | discriminate | lia |].
  exists left_out. split; [exact Hsplit|]. rewrite Hlen.
  vm_compute. reflexivity.
Defined.







(** *** The fields of a sentiment result *)

Lemma lower_char_space c : is_space (lower_char c) = is_space c.
Proof. destruct c as [[] [] [] [] [] [] [] []]; reflexivity. Qed.

Lemma lower_char_idemp c : lower_char (lower_char c) = lower_char c.
Proof. destruct c as [[] [] [] [] [] [] [] []]; reflexivity. Qed.

Lemma lower_idemp s : lower (lower s) = lower s.
Proof. induction s as [|c s IH]; simpl; [done|]. by rewrite lower_char_idemp, IH. Qed.

Lemma lower_rev_app s acc : lower (rev_app s acc) = rev_app (lower s) (lower acc).
Proof. revert acc. induction s as [|c s IH]; intros acc; simpl; [done|]. by rewrite IH. Qed.

Lemma lower_starts_clean s : starts_clean (lower s) = starts_clean s.
Proof. destruct s as [|c s]; simpl; [done|]. by rewrite lower_char_space. Qed.

Lemma lower_ends_clean s : ends_clean (lower s) = ends_clean s.
Proof.
  unfold ends_clean, rev. change "" with (lower "") at 1.
  by rewrite <- lower_rev_app, lower_starts_clean.
Qed.

Lemma take_while_forallb p s : str_forallb p (take_while p s) = true.
Proof.
  induction s as [|c s IH]; simpl; [done|].
  destruct (p c) eqn:Hc; simpl; [by rewrite Hc, IH | done].
Qed.

Lemma int_of_digits_nonneg s acc :
  str_forallb is_decimal s = true → 0 ≤ acc → 0 ≤ int_of_digits acc s.
Proof.
  revert acc. induction s as [|c s IH]; intros acc; simpl; [done|].
  intros [Hc Hs]%andb_true_iff Hacc. apply IH; [done|].
  unfold is_decimal in Hc. apply andb_true_iff in Hc as [Hc _].
  apply Nat.leb_le in Hc. lia.
Qed.

Lemma search_digits_decimal s digits :
  search_digits s = Some digits → str_forallb is_decimal digits = true.
Proof.
  induction s as [|c s IH]; simpl; [done|].
  destruct (is_decimal c) eqn:Hc; [|done].
  intros [= <-]. simpl. by rewrite Hc, take_while_forallb.
Qed.

(** The confidence is the number read, or 50: never negative. *)
Lemma confidence_nonneg (rest : option string) :
  0 ≤ default 50
        (rest ← rest;
         match search_digits (strip rest) with
         | Some digits => py_int digits
         | None => Some 50
         end).
Proof.
  destruct rest as [rest|]; simpl; [|lia].
  destruct (search_digits (strip rest)) as [digits|] eqn:Hd; simpl; [|lia].
  unfold py_int. destruct (_ <? _)%nat; simpl; [lia|].
  apply int_of_digits_nonneg; [|lia]. by eapply search_digits_decimal.
Qed.

Lemma sentiment_line_typed d line d' :
  (∀ key v, d !! key = Some v → sentiment_typed key v) →
  sentiment_line d line = Some d' →
  ∀ key v, d' !! key = Some v → sentiment_typed key v.
Proof.
  intros Hd. unfold sentiment_line.
  destruct (startswith "Sentiment:" (strip line)) eqn:H1.
  { destruct (_ !! 1%nat) as [rest|]; [|done]. simpl. intros [= <-] key v.
    rewrite lookup_insert. case_decide as Hk; [|apply Hd].
    intros [= <-]. subst key. right; left. split; [done|].
    eexists. split; [done|]. rewrite lower_idemp, lower_starts_clean, lower_ends_clean.
    split; [done|]. apply strip_clean. }
  destruct (startswith "Confidence:" (strip line)) eqn:H2.
  { intros [= <-] key v.
    rewrite lookup_insert. case_decide as Hk; [|apply Hd].
    intros [= <-]. subst key. left. split; [done|].
    eexists. split; [done|]. apply confidence_nonneg. }
  destruct (startswith "Explanation:" (strip line)) eqn:H3.
  { destruct (_ !! 1%nat) as [rest|]; [|done]. simpl. intros [= <-] key v.
    rewrite lookup_insert. case_decide as Hk; [|apply Hd].
    intros [= <-]. subst key. right; right. split; [done|].
    eexists. split; [done|]. apply strip_clean. }
  by intros [= <-].
Qed.

Lemma sentiment_lines_typed lines d d' :
  (∀ key v, d !! key = Some v → sentiment_typed key v) →
  sentiment_lines d lines = Some d' →
  ∀ key v, d' !! key = Some v → sentiment_typed key v.
Proof.
  revert d. induction lines as [|line lines IH]; intros d Hd; simpl.
  - by intros [= <-].
  - destruct (sentiment_line d line) as [d1|] eqn:H1; [|done]. simpl.
    apply IH. by eapply sentiment_line_typed.
Qed.

Lemma fallback_sentiment_typed key v :
  _fallback_sentiment !! key = Some v → sentiment_typed key v.
Proof.
  unfold _fallback_sentiment. rewrite !lookup_insert.
  repeat case_decide; subst; try (rewrite lookup_empty; done); intros [= <-].
  - right; left. split; [done|]. by eexists.
  - left. split; [done|]. eexists. split; [done | lia].
  - right; right. split; [done|]. by eexists.
Qed.

(** X4: in every mode, whatever the model answers, a field of a sentiment
    result has the type that the fallback gives it: confidence is an
    integer that is not negative (no upper bound is enforced), sentiment
    is a lower-case string and explanation a string, both without
    whitespace at either end. *)
Theorem sentiment_result_typed self content key v :
  analyze_sentiment self content !! key = Some v → sentiment_typed key v.
Proof.
  unfold analyze_sentiment.
  destruct (negb (available self)); [apply fallback_sentiment_typed|].
  destruct (chat self _) as [text|]; [|apply fallback_sentiment_typed].
  destruct (sentiment_lines ∅ _) as [d|] eqn:Hd; [|apply fallback_sentiment_typed].
  eapply sentiment_lines_typed; [|exact Hd]. intros k x. by rewrite lookup_empty.
Qed.

Lemma sentiment_result_typed_witness :
  let self := answering ("Sentiment:  POSITIVE " +:+ nl +:+ "Confidence: 250%") in
  analyze_sentiment self "Markets today." !! "confidence" = Some (VInt 250) ∧
  sentiment_typed "confidence" (VInt 250).
Proof.
  intros self.
  assert (analyze_sentiment self "Markets today." !! "confidence"
          = Some (VInt 250)) as H by (vm_compute; reflexivity).
  split; [exact H|].
  exact (sentiment_result_typed self "Markets today." "confidence" (VInt 250) H).
Defined.

(** X5: the service built by [__init__] is available exactly when the API
    key is set, is not empty and the client constructs; it then calls
    that client with the configured model, or the default one; and when
    it is not available, each of the three operations is its fallback,
    for every input. *)
Theorem init_mode api_key cohere_model ClientV2 :
  let self := init api_key cohere_model ClientV2 in
  (is_available self = true
   ↔ ∃ key c, api_key = Some key ∧ key ≠ "" ∧ ClientV2 key = Some c) ∧
  (∀ key c, api_key = Some key → key ≠ "" → ClientV2 key = Some c →
            ∀ message, chat self message
                       = c (default "command-a-03-2025" cohere_model) message) ∧
  (is_available self = false →
   ∀ title content n,
     generate_summary self title content n = _fallback_summary content n ∧
     generate_key_points self content n = _fallback_key_points content n ∧
     analyze_sentiment self content = _fallback_sentiment).
Proof.
  simpl. unfold init, is_available. split; [|split].
  - destruct api_key as [key|]; [|split; [done | by intros (? & ? & ? & _)]].
    case_bool_decide as Hk.
    { split; [done|]. intros (? & ? & [= <-] & ? & _). done. }
    destruct (ClientV2 key) as [c|] eqn:Hc.
    + split; [|done]. intros _. by exists key, c.
    + split; [done|]. intros (? & ? & [= <-] & _ & ?). congruence.
  - intros key c -> Hk Hc message.
    rewrite bool_decide_eq_false_2, Hc by done. done.
  - intros Hu title content n. unfold generate_summary, generate_key_points,
      analyze_sentiment. by rewrite Hu.
Qed.

Lemma init_mode_witness :
  let self := init None (Some "command-r") (λ _, None) in
  is_available self = false ∧
  generate_summary self "T" "one two three four five" 3 = "one two three...".
Proof.
  intros self. split; [reflexivity|]. unfold self.
  destruct (init_mode None (Some "command-r") (λ _, None)) as (_ & _ & H).
  destruct (H eq_refl "T" "one two three four five" 3) as (Hs & _).
  rewrite Hs. reflexivity.
Defined.



End AIMore.

(** ** More on the feed ingestion service *)

Module RSSMore.
Import Py PyFacts PyMore Datetime DatetimeFacts Bs4 RSSService Spec Shape RSSFacts.

(** *** The text of a field *)

Lemma collapse_chunk_shape text chunk :
  chunk ∈ filter (λ chunk, chunk ≠ "")
           (strip <$> flat_map (split "  ") (strip <$> splitlines_go "" text)) →
  (chunk ≠ "" ∧ starts_clean chunk = true ∧ ends_clean chunk = true
   ∧ single_spaced chunk = true) ∧ one_line chunk = true.
Proof.
  intros [Hne Hin]%list_elem_of_filter.
  apply list_elem_of_fmap in Hin as (phrase & -> & Hin).
  apply list_elem_of_In, in_flat_map in Hin as (line & Hline & Hphrase).
  apply list_elem_of_In, list_elem_of_fmap in Hline as (raw & -> & Hraw).
  apply list_elem_of_In in Hphrase.
  split; [split; [done|]; split; [apply strip_clean|]; split; [apply strip_clean|]|].
  - apply strip_single_spaced, double_space_free.
    by eapply split_fragment_free.
  - apply strip_forallb. eapply split_forallb; [|exact Hphrase].
    apply strip_forallb. by eapply splitlines_one_line.
Qed.

(** Collapsed text is one line, single-spaced, clean at both ends. *)
Lemma collapse_whitespace_shape text :
  one_line (collapse_whitespace text) = true ∧
  single_spaced (collapse_whitespace text) = true ∧
  starts_clean (collapse_whitespace text) = true ∧
  ends_clean (collapse_whitespace text) = true.
Proof.
  unfold collapse_whitespace.
  set (chunks := filter _ _).
  assert (Forall (λ chunk, (chunk ≠ "" ∧ starts_clean chunk = true
                            ∧ ends_clean chunk = true
                            ∧ single_spaced chunk = true)
                           ∧ one_line chunk = true) chunks) as Hall.
  { apply Forall_forall. intros chunk. apply collapse_chunk_shape. }
  apply Forall_and in Hall as [Hshape Hline].
  destruct (join_space_shape _ Hshape) as (Hs & He & Hd & _).
  split; [|done]. by apply join_forallb.
Qed.

(** X7: where the parser accepts the markup, the sanitized text is at
    most 1000 characters, holds no line boundary and no two spaces in a
    row, and does not begin with whitespace; unless it was cut at 1000
    characters, it does not end with whitespace either. *)
Theorem sanitized_text_shape w html_content (s : soup) :
  truthy html_content = true →
  BeautifulSoup w html_content = Some s →
  ∃ text,
    _clean_html w html_content = Some (VStr text) ∧
    (String.length text ≤ 1000)%nat ∧
    one_line text = true ∧
    single_spaced text = true ∧
    starts_clean text = true ∧
    ((String.length (collapse_whitespace
        (get_text (decompose_all ["script"; "style"] s))) ≤ 1000)%nat →
     ends_clean text = true).
Proof.
  intros Ht Hs. unfold _clean_html. rewrite Ht, Hs. cbn [negb].
  eexists. split; [reflexivity|].
  destruct (collapse_whitespace_shape
              (get_text (decompose_all ["script"; "style"] s)))
    as (Hl & Hd & Hb & He).
  split; [apply str_take_length|].
  split; [by apply str_take_forallb|].
  split; [by apply str_take_single_spaced|].
  split; [by apply str_take_starts_clean|].
  intros Hlen. by rewrite str_take_all.
Qed.

Lemma sanitized_text_shape_witness :
  let w := world_serving ∅ in
  let markup := VStr ("  Rates   rose. " +:+ nl +:+ nl +:+ "  Shares fell.  ") in
  truthy markup = true ∧
  BeautifulSoup w markup
    = Some [NavigableString ("  Rates   rose. " +:+ nl +:+ nl +:+ "  Shares fell.  ")] ∧
  _clean_html w markup = Some (VStr "Rates rose. Shares fell.") ∧
  ∃ text, _clean_html w markup = Some (VStr text) ∧ single_spaced text = true.
Proof.
  intros w markup. split; [reflexivity|]. split; [reflexivity|].
  split; [vm_compute; reflexivity|].
  destruct (sanitized_text_shape w markup _ eq_refl eq_refl)
    as (text & Htext & _ & _ & Hd & _).
  by exists text.
Defined.

(** *** The fields of an article *)

Lemma get_chain (item : gmap string value) k1 k2 dflt :
  dict_get item k1 (dict_get item k2 dflt)
  = default dflt (first_present [k1; k2] item).
Proof.
  unfold dict_get. simpl. destruct (item !! k1); [done|]. by destruct (item !! k2).
Qed.

(** The article as the source builds it, before the date is added. *)
Lemma parse_article_fields w item article :
  _parse_article_xml w (VDict item) = Some article →
  dom article
  = article_keys ∪ (if truthy (dict_get item "pubDate" (VStr ""))
                    then {["published_date"]} else ∅) ∧
  article !! "title" = Some (dict_get item "title" (VStr "Untitled")) ∧
  article !! "link" = Some (dict_get item "link" (VStr "")) ∧
  article !! "source" = Some (VStr "RSS Feed") ∧
  article !! "author"
    = Some (default (VStr "Unknown") (first_present ["author"; "dc:creator"] item)) ∧
  article !! "guid"
    = Some (default (VStr "") (first_present ["guid"; "link"] item)) ∧
  article !! "updated"
    = Some (default (VStr "") (first_present ["updated"; "pubDate"] item)) ∧
  article !! "tags"
    = Some (VList (filter (λ cat, truthy cat = true) (categories_of item))).
Proof.
  assert (match dict_get item "category" (VList []) with
          | VList l => l
          | _ => [dict_get item "category" (VList [])]
          end = categories_of item) as Hcat.
  { unfold dict_get, categories_of. by destruct (item !! "category") as [[]|]. }
  unfold _parse_article_xml. cbv zeta.
  rewrite !text_field_chain, !get_chain, Hcat.
  destruct (text_field w ["description"; "summary"] item) as [summary|];
    [|done].
  destruct (text_field w ["content:encoded"; "content"] item) as [content|];
    [|done].
  cbn [mbind option_bind]. intros H.
  destruct (truthy (dict_get item "pubDate" (VStr "")));
    apply (inj Some) in H; subst article;
    (split; [rewrite !dom_insert_L, dom_empty_L; unfold article_keys;
             set_solver|]);
    lookup_inserts; done.
Qed.

(** X8: every article has the same ten fields, and the field
    published_date besides exactly when the item has a pubDate that is
    not empty; its source is the fixed "RSS Feed"; its tags are a list,
    the categories of the item that are not empty, in their order. *)
Theorem article_schema w item article :
  _parse_article_xml w (VDict item) = Some article →
  dom article
  = article_keys ∪ (if truthy (dict_get item "pubDate" (VStr ""))
                    then {["published_date"]} else ∅) ∧
  article !! "source" = Some (VStr "RSS Feed") ∧
  ∃ tags,
    article !! "tags" = Some (VList tags) ∧
    tags = filter (λ cat, truthy cat = true) (categories_of item) ∧
    Forall (λ tag, truthy tag = true) tags.
Proof.
  intros (Hdom & _ & _ & Hsrc & _ & _ & _ & Htags)%parse_article_fields.
  split; [done|]. split; [done|]. eexists. split; [done|]. split; [done|].
  apply Forall_forall. by intros tag [? _]%list_elem_of_filter.
Qed.

Lemma article_schema_witness :
  let w := world_serving ∅ in
  let item : gmap string value :=
    <["title" := VStr "A"]>
    (<["category" := VList [VStr "markets"; VNone; VStr "rates"]]> ∅) in
  let article := default ∅ (_parse_article_xml w (VDict item)) in
  _parse_article_xml w (VDict item) = Some article ∧
  dom article = article_keys ∧
  article !! "tags" = Some (VList [VStr "markets"; VStr "rates"]).
Proof.
  intros w item article.
  assert (_parse_article_xml w (VDict item) = Some article) as Hp
    by (vm_compute; reflexivity).
  split; [exact Hp|].
  destruct (article_schema w item article Hp) as (Hdom & _ & tags & Ht & -> & _).
  split.
  - rewrite Hdom. apply union_empty_r_L.
  - rewrite Ht. reflexivity.
Defined.

(** X9: author, guid and updated each take the first key that the item
    has, in the order author then dc:creator, guid then link, updated
    then pubDate, and the default "Unknown" or "" when it has neither. A
    key that is there with a null value counts as there: an empty author
    element gives a null author, not the creator. Without a guid, the
    guid is the link. *)
Theorem article_fallback_chains w item article :
  _parse_article_xml w (VDict item) = Some article →
  article !! "author"
    = Some (default (VStr "Unknown") (first_present ["author"; "dc:creator"] item)) ∧
  article !! "guid"
    = Some (default (VStr "") (first_present ["guid"; "link"] item)) ∧
  article !! "updated"
    = Some (default (VStr "") (first_present ["updated"; "pubDate"] item)) ∧
  (item !! "author" = Some VNone → article !! "author" = Some VNone) ∧
  (item !! "guid" = None → article !! "guid" = article !! "link").
Proof.
  intros (_ & _ & Hlink & _ & Hauthor & Hguid & Hupd & _)%parse_article_fields.
  split; [done|]. split; [done|]. split; [done|]. split.
  - intros Hnull. rewrite Hauthor. simpl. by rewrite Hnull.
  - intros Hno. rewrite Hguid, Hlink. unfold dict_get. simpl. rewrite Hno.
    by destruct (item !! "link").
Qed.

Lemma article_fallback_chains_witness :
  let w := world_serving ∅ in
  let item : gmap string value :=
    <["author" := VNone]> (<["dc:creator" := VStr "Ada"]>
    (<["link" := VStr "https://example.org/a"]> ∅)) in
  let article := default ∅ (_parse_article_xml w (VDict item)) in
  _parse_article_xml w (VDict item) = Some article ∧
  item !! "author" = Some VNone ∧
  article !! "author" = Some VNone ∧
  article !! "guid" = Some (VStr "https://example.org/a").
Proof.
  intros w item article.
  assert (_parse_article_xml w (VDict item) = Some article) as Hp
    by (vm_compute; reflexivity).
  split; [exact Hp|]. split; [reflexivity|].
  destruct (article_fallback_chains w item article Hp) as (_ & Hg & _ & Ha & _).
  split; [by apply Ha|]. rewrite Hg. reflexivity.
Defined.

(** *** Items that are skipped *)

Lemma clean_html_None w v :
  _clean_html w v = None ↔ sliceable v = false ∧ BeautifulSoup w v = None.
Proof.
  unfold _clean_html.
  destruct v as [|b|s|z|l|d]; simpl.
  - split; [done | by intros [? _]].
  - destruct b; simpl; [|split; [done | by intros [? _]]].
    destruct (BeautifulSoup w _); split; try done; by intros [_ ?].
  - destruct (negb _); [split; [done | by intros [? _]]|].
    destruct (BeautifulSoup w _); split; try done; by intros [? _].
  - destruct (z =? 0); simpl; [split; [done | by intros [? _]]|].
    destruct (BeautifulSoup w _); split; try done; by intros [_ ?].
  - destruct (negb _); [split; [done | by intros [? _]]|].
    destruct (BeautifulSoup w _); split; try done; by intros [? _].
  - case_bool_decide; simpl; [split; [done | by intros [? _]]|].
    destruct (BeautifulSoup w _); split; try done; by intros [_ ?].
Qed.

Lemma text_field_None w keys item :
  text_field w keys item = None
  ↔ ∃ v, first_present keys item = Some v ∧ sliceable v = false
         ∧ BeautifulSoup w v = None.
Proof.
  unfold text_field. destruct (first_present keys item) as [v|].
  - rewrite clean_html_None. split; [by exists v | by intros (? & [= <-] & ?)].
  - split; [done | by intros (? & ? & _)].
Qed.

Lemma parse_article_None w item :
  _parse_article_xml w (VDict item) = None
  ↔ text_field w ["description"; "summary"] item = None
    ∨ text_field w ["content:encoded"; "content"] item = None.
Proof.
  pose proof (parse_article_is_Some w item) as Hsome.
  destruct (_parse_article_xml w (VDict item)) as [article|].
  - destruct Hsome as [[[? Hs] [? Hc]] _]; [by eexists|].
    split; [done | intros [? | ?]; congruence].
  - split; [intros _ | done].
    destruct (text_field w ["description"; "summary"] item) eqn:Hs; [|by left].
    destruct (text_field w ["content:encoded"; "content"] item) eqn:Hc;
      [|by right].
    destruct Hsome as [_ Hback]. by destruct Hback as [? ?]; [eauto|].
Qed.

(** X10: an item that is an object is skipped exactly when, for its
    summary or for its content, the first source field that it has is a
    value on which the parser raises and that cannot be cut either (an
    object, or a number or boolean that is not zero). An item whose text
    fields are strings, lists or null is never skipped. *)
Theorem item_skipped_only_on_unsliceable_text w item :
  _parse_article_xml w (VDict item) = None
  ↔ ∃ keys v,
      (keys = ["description"; "summary"] ∨ keys = ["content:encoded"; "content"]) ∧
      first_present keys item = Some v ∧
      sliceable v = false ∧
      BeautifulSoup w v = None.
Proof.
  rewrite parse_article_None, !text_field_None. split.
  - intros [(v & ? & ? & ?) | (v & ? & ? & ?)].
    + exists ["description"; "summary"], v. eauto.
    + exists ["content:encoded"; "content"], v. eauto.
  - intros (keys & v & [-> | ->] & ? & ? & ?); [left | right]; eauto.
Qed.

Lemma item_skipped_only_on_unsliceable_text_witness :
  let w := world_serving ∅ in
  let item : gmap string value :=
    {["description" := VDict {["#text" := VStr "Rates rose."]}]} in
  first_present ["description"; "summary"] item
    = Some (VDict {["#text" := VStr "Rates rose."]}) ∧
  _parse_article_xml w (VDict item) = None.
Proof.
  intros w item. split; [reflexivity|].
  apply (item_skipped_only_on_unsliceable_text w item).
  exists ["description"; "summary"], (VDict {["#text" := VStr "Rates rose."]}).
  split; [by left|]. split; [reflexivity|]. split; reflexivity.
Defined.

(** *** The whole fetch *)

(** X11: the fetch returns a result exactly when the request is answered,
    the body parses to a document of the shape rss.channel, and the item
    of the channel (an empty list when there is none) has a length: it is
    a list, an object or a string. *)
Theorem fetch_succeeds_iff w self url :
  is_Some (fetch_rss_feed w self url)
  ↔ ∃ channel, serves w self url channel
               ∧ is_Some (py_len (dict_get channel "item" (VList []))).
Proof.
  split.
  - intros [result (channel & Hs & Hres)%fetch_Some_serves].
    exists channel. split; [done|].
    unfold channel_result in Hres.
    by destruct (py_len (dict_get channel "item" (VList []))).
  - intros (channel & Hs & [n Hlen]).
    unfold fetch_rss_feed. rewrite (fetch_exit_serves _ _ _ _ Hs).
    by destruct (channel_result_items w url channel _ n Hlen eq_refl)
      as (result & -> & _).
Qed.

Lemma fetch_succeeds_iff_witness :
  let w := world_serving (rss_document {["item" := VStr "loose text"]}) in
  is_Some (fetch_rss_feed w init feed_url).
Proof.
  intros w. apply (fetch_succeeds_iff w init feed_url).
  exists {["item" := VStr "loose text"]}. split.
  - exists "<rss/>", (rss_document {["item" := VStr "loose text"]}).
    split; [reflexivity|]. split; [reflexivity|].
    exists {["channel" := VDict {["item" := VStr "loose text"]}]}.
    split; reflexivity.
  - vm_compute. eexists. reflexivity.
Defined.

(** X12: every result of the fetch has the four keys feed_info, articles,
    fetch_time and success; success is true and fetch_time is the clock's
    reading; feed_info has its six keys, with total_entries a number that
    is not negative and link the feed's URL when the channel has no link;
    articles is a list of at most 20 objects. *)
Theorem fetch_result_shape w self url result :
  fetch_rss_feed w self url = Some result →
  dom result = {["feed_info"; "articles"; "fetch_time"; "success"]} ∧
  result !! "success" = Some (VBool true) ∧
  result !! "fetch_time" = Some (VStr (now_isoformat w)) ∧
  (∃ feed_info total_entries,
     result !! "feed_info" = Some (VDict feed_info) ∧
     dom feed_info = {["title"; "description"; "link"; "updated";
                       "language"; "total_entries"]} ∧
     feed_info !! "total_entries" = Some (VInt total_entries) ∧
     0 ≤ total_entries ∧
     ∀ channel, serves w self url channel → channel !! "link" = None →
       feed_info !! "link" = Some (VStr url)) ∧
  ∃ articles,
    result !! "articles" = Some (VList articles) ∧
    (length articles ≤ 20)%nat ∧
    Forall (λ a, is_object a = true) articles.
Proof.
  intros Hres.
  pose proof Hres as (channel & Hs & Hch)%fetch_Some_serves.
  unfold channel_result in Hch.
  destruct (py_len (dict_get channel "item" (VList []))) as [n|]; [|done].
  cbv zeta in Hch. injection Hch as <-.
  split; [rewrite !dom_insert_L, dom_empty_L; set_solver|].
  split; [by lookup_inserts|]. split; [by lookup_inserts|]. split.
  - eexists _, (Z.of_nat n). split; [by lookup_inserts|].
    split; [rewrite !dom_insert_L, dom_empty_L; set_solver|].
    split; [by lookup_inserts|]. split; [lia|].
    intros channel' Hs' Hlink.
    assert (channel' = channel) as ->.
    { destruct Hs as (b & fd & Hb & Hfd & r & Hr & Hc).
      destruct Hs' as (b' & fd' & Hb' & Hfd' & r' & Hr' & Hc').
      congruence. }
    lookup_inserts. unfold dict_get. by rewrite Hlink.
  - eexists. split; [by lookup_inserts|]. split.
    + rewrite length_fmap. etrans; [apply length_omap_le|].
      rewrite length_take. lia.
    + apply Forall_fmap, Forall_forall. done.
Qed.

Lemma fetch_result_shape_witness :
  let w := world_serving (rss_document {["title" := VStr "Wire"]}) in
  let result := default ∅ (fetch_rss_feed w init feed_url) in
  fetch_rss_feed w init feed_url = Some result ∧
  dom result = {["feed_info"; "articles"; "fetch_time"; "success"]} ∧
  result !! "fetch_time" = Some (VStr "2024-01-02T08:30:00").
Proof.
  intros w result.
  assert (fetch_rss_feed w init feed_url = Some result) as Hres
    by (vm_compute; reflexivity).
  split; [exact Hres|].
  destruct (fetch_result_shape w init feed_url result Hres)
    as (Hdom & _ & Htime & _).
  split; [exact Hdom | exact Htime].
Defined.

Lemma first_present_lookup keys (item : gmap string value) v :
  first_present keys item = Some v → ∃ key, item !! key = Some v.
Proof.
  induction keys as [|k keys IH]; [done|]. simpl.
  destruct (item !! k) as [x|] eqn:Hk; [|exact IH].
  intros [= <-]. by exists k.
Qed.

(** X13: for a channel whose items are a list, total_entries is the
    number of all the items, those after the twentieth and those that are
    skipped included; the articles are no more than the objects among the
    first 20 items, so no more than total_entries; and they are as many
    as the first 20 items when these are objects whose text fields are
    strings, lists or null. *)
Theorem total_entries_counts_all_items w self url channel items :
  serves w self url channel →
  channel !! "item" = Some (VList items) →
  feed_info_of (fetch_rss_feed w self url) "total_entries"
    = Some (VInt (Z.of_nat (length items))) ∧
  ∃ articles,
    articles_of (fetch_rss_feed w self url) = Some articles ∧
    (length articles
     ≤ length (filter (λ item, is_object item = true) (take 20 items)))%nat ∧
    (length articles ≤ length items)%nat ∧
    (Forall (λ item, ∃ fields, item = VDict fields ∧
               ∀ key v, fields !! key = Some v → sliceable v = true)
       (take 20 items) →
     length articles = Nat.min 20 (length items)).
Proof.
  intros Hs Hitem. unfold fetch_rss_feed. rewrite (fetch_exit_serves _ _ _ _ Hs).
  destruct (channel_result_items w url channel (VList items) (length items))
    as (result & -> & Hinfo & Harts); [done | by unfold dict_get; rewrite Hitem|].
  split; [done|]. eexists. split; [exact Harts|].
  rewrite length_fmap.
  assert (∀ l, length (omap (_parse_article_xml w) l)
               ≤ length (filter (λ item, is_object item = true) l))%nat as Hle.
  { induction l as [|x l IH]; [done|].
    change (omap (_parse_article_xml w) (x :: l))
      with (match _parse_article_xml w x with
            | Some a => a :: omap (_parse_article_xml w) l
            | None => omap (_parse_article_xml w) l
            end).
    destruct x as [| | | | |d];
      [rewrite filter_cons_False by done; exact IH.. |].
    rewrite filter_cons_True by done.
    destruct (_parse_article_xml w (VDict d)); cbn [length]; lia. }
  split; [apply Hle|]. split.
  - etrans; [apply length_omap_le|]. rewrite length_take. lia.
  - intros Hall.
    destruct (omap_all_Some (_parse_article_xml w) (take 20 items)) as [-> _];
      [|by rewrite length_take].
    eapply Forall_impl; [exact Hall|].
    intros item (fields & -> & Hfields).
    destruct (_parse_article_xml w (VDict fields)) as [a|] eqn:Hp; [by eexists|].
    assert (∃ keys v, first_present keys fields = Some v ∧ sliceable v = false)
      as (keys & v & Hv & Hsl).
    { apply parse_article_None in Hp.
      destruct Hp as [(v & ? & ? & _)%text_field_None
                     | (v & ? & ? & _)%text_field_None]; eauto. }
    destruct (first_present_lookup keys fields v Hv) as [key Hkey].
    specialize (Hfields key v Hkey). congruence.
Qed.

Lemma total_entries_counts_all_items_witness :
  let w := world_serving (rss_document {["item" := VList items_21]}) in
  feed_info_of (fetch_rss_feed w init feed_url) "total_entries"
    = Some (VInt 21) ∧
  ∃ articles,
    articles_of (fetch_rss_feed w init feed_url) = Some articles ∧
    (length articles ≤ 19)%nat.
Proof.
  intros w.
  destruct (total_entries_counts_all_items w init feed_url
              {["item" := VList items_21]} items_21)
    as (Htotal & articles & Harts & Hle & _).
  - exists "<rss/>", (rss_document {["item" := VList items_21]}).
    split; [reflexivity|]. split; [reflexivity|].
    exists {["channel" := VDict {["item" := VList items_21]}]}.
    split; reflexivity.
  - reflexivity.
  - split; [exact Htotal|]. exists articles. split; [exact Harts|].
    exact Hle.
Defined.

(** X14: a channel without any item gives a result with no article and
    total_entries 0. A channel whose item is null, as for one empty item
    element, or a number or a boolean, makes the whole fetch fail. A
    channel whose item is a string gives a result with no article and the
    length of the string as total_entries. *)
Theorem fetch_item_not_a_list w self url channel :
  serves w self url channel →
  (channel !! "item" = None →
   feed_info_of (fetch_rss_feed w self url) "total_entries" = Some (VInt 0) ∧
   articles_of (fetch_rss_feed w self url) = Some []) ∧
  (∀ v, channel !! "item" = Some v →
        v = VNone ∨ (∃ b, v = VBool b) ∨ (∃ z, v = VInt z) →
        fetch_rss_feed w self url = None) ∧
  (∀ s, channel !! "item" = Some (VStr s) →
        feed_info_of (fetch_rss_feed w self url) "total_entries"
          = Some (VInt (Z.of_nat (String.length s))) ∧
        articles_of (fetch_rss_feed w self url) = Some []).
Proof.
  intros Hs. unfold fetch_rss_feed. rewrite (fetch_exit_serves _ _ _ _ Hs).
  split; [|split].
  - intros Hno.
    destruct (channel_result_items w url channel (VList []) 0)
      as (result & -> & Hinfo & Harts);
      [done | by unfold dict_get; rewrite Hno|].
    by split.
  - intros v Hv Hkind. unfold channel_result, dict_get. rewrite Hv. simpl.
    by destruct Hkind as [-> | [[b ->] | [z ->]]].
  - intros s Hv.
    destruct (channel_result_items w url channel (VStr s) (String.length s))
      as (result & -> & Hinfo & Harts);
      [done | by unfold dict_get; rewrite Hv|].
    by split.
Qed.

Lemma fetch_item_not_a_list_witness :
  let w := world_serving (rss_document {["item" := VNone]}) in
  fetch_rss_feed w init feed_url = None.
Proof.
  intros w.
  destruct (fetch_item_not_a_list w init feed_url {["item" := VNone]})
    as (_ & Hnull & _).
  - exists "<rss/>", (rss_document {["item" := VNone]}).
    split; [reflexivity|]. split; [reflexivity|].
    exists {["channel" := VDict {["item" := VNone]}]}.
    split; reflexivity.
  - apply (Hnull VNone); [reflexivity | by left].
Defined.

(** *** The route *)

Lemma fetch_result_truthy w self url result :
  fetch_rss_feed w self url = Some result → truthy (VDict result) = true.
Proof.
  intros (channel & _ & Hch)%fetch_Some_serves.
  unfold channel_result in Hch.
  destruct (py_len (dict_get channel "item" (VList []))) as [n|]; [|done].
  cbv zeta in Hch. injection Hch as <-.
  simpl. apply negb_true_iff, bool_decide_eq_false_2.
  intros Hz%map_size_empty_iff.
  by apply (insert_non_empty _ _ _ Hz).
Qed.

(** X15: the route /api/fetch-feed answers with one of three statuses.
    400, with the same body in every world, exactly when the url argument
    is missing or empty; 200 exactly when the url is not empty and the
    fetch returns a result, and the body then carries that result as
    data; 500 otherwise. The body's success is true with 200 only, and a
    body has an error exactly when it has no data: the test for an empty
    result never fires, as a result always has its four keys. *)
Theorem fetch_feed_status w url :
  ∃ status body,
    App.fetch_feed w url = (status, body) ∧
    (status = 400 ∨ status = 200 ∨ status = 500) ∧
    (status = 400 ↔ url = None ∨ url = Some "") ∧
    (status = 400 → (status, body) = url_required) ∧
    (status = 200
     ↔ ∃ u, url = Some u ∧ u ≠ "" ∧ is_Some (fetch_rss_feed w init u)) ∧
    body !! "success" = Some (VBool (bool_decide (status = 200))) ∧
    (status = 200 →
     ∃ u data, url = Some u ∧ fetch_rss_feed w init u = Some data
               ∧ body !! "data" = Some (VDict data)
               ∧ body !! "error" = None) ∧
    (status ≠ 200 → is_Some (body !! "error") ∧ body !! "data" = None).
Proof.
  unfold App.fetch_feed, url_required.
  destruct url as [u|].
  - case_bool_decide as Hu.
    + subst u. eexists _, _. split; [reflexivity|].
      split; [by left|]. split; [by split; [right|]|]. split; [done|].
      split; [split; [done | by intros (? & [= <-] & ? & _)]|].
      split; [done|]. split; [done|]. intros _. split; [by eexists | done].
    + destruct (fetch_rss_feed w init u) as [data|] eqn:Hres.
      * rewrite (fetch_result_truthy _ _ _ _ Hres).
        simpl. eexists _, _. split; [reflexivity|].
        split; [by right; left|].
        split; [split; [done | by intros [? | [= ?]]]|]. split; [done|].
        split; [split; [|done]; intros _; exists u; eauto|].
        split; [done|]. split; [|done]. intros _. by exists u, data.
      * eexists _, _. split; [reflexivity|]. split; [by right; right|].
        split; [split; [done | by intros [? | [= ?]]]|]. split; [done|].
        split; [split; [done|]; intros (u' & [= <-] & _ & [? ?]); congruence|].
        split; [done|]. split; [done|]. intros _. split; [by eexists | done].
  - eexists _, _. split; [reflexivity|].
    split; [by left|]. split; [by split; [left|]|]. split; [done|].
    split; [split; [done | by intros (? & [= ] & _)]|].
    split; [done|]. split; [done|]. intros _. split; [by eexists | done].
Qed.

Lemma fetch_feed_status_witness :
  (App.fetch_feed world_offline (Some feed_url)).1 = 500.
Proof.
  destruct (fetch_feed_status world_offline (Some feed_url))
    as (status & body & -> & Hcases & H400 & _ & H200 & _).
  destruct Hcases as [Hs | [Hs | Hs]]; [| |exact Hs].
  - apply H400 in Hs as [Hs | Hs]; discriminate Hs.
  - apply H200 in Hs as (u & _ & _ & [result Hres]).
    destruct (fetch_rss_feed world_offline init u) eqn:Hoff;
      [vm_compute in Hoff|]; discriminate.
Defined.

(** *** Dates and the host's time zone *)

Lemma strptime_zone_free tz dl tz' dl' s fmt :
  fmt ∈ tail formats →
  strptime tz dl s fmt = strptime tz' dl' s fmt.
Proof.
  intros Hin. unfold strptime.
  assert (pattern tz dl fmt = pattern tz' dl' fmt) as ->; [|done].
  unfold formats in Hin. simpl in Hin.
  repeat (apply elem_of_cons in Hin as [-> | Hin]; [vm_compute; reflexivity|]).
  by apply elem_of_nil in Hin.
Qed.

Lemma first_parsed_zone_free w1 w2 s fmts :
  fmts ⊆ tail formats →
  first_parsed w1 s fmts = first_parsed w2 s fmts.
Proof.
  induction fmts as [|fmt fmts IH]; intros Hsub; [done|]. simpl.
  rewrite (strptime_zone_free (tzname w1) (daylight w1)
             (tzname w2) (daylight w2)) by (apply Hsub; left).
  rewrite IH; [done|]. intros f Hf. apply Hsub. by right.
Qed.

(** X16: the host's time zone names reach a parsed date through the
    first format only, the one with a named zone: two hosts on which that
    format gives the same for a date string (as when it fails on both)
    turn the string into the same value. What is no string comes back as
    it is on every host. *)
Theorem parse_rss_date_zone_free w1 w2 date_string :
  (∀ s, date_string = VStr s →
        strptime (tzname w1) (daylight w1) s "%a, %d %b %Y %H:%M:%S %Z"
        = strptime (tzname w2) (daylight w2) s "%a, %d %b %Y %H:%M:%S %Z") →
  _parse_rss_date w1 date_string = _parse_rss_date w2 date_string ∧
  ((∀ s, date_string ≠ VStr s) → _parse_rss_date w1 date_string = date_string).
Proof.
  intros Hfirst. split.
  2: { intros Hother.
       destruct date_string as [| |s| | |];
         [reflexivity | reflexivity | | reflexivity..].
       by destruct (Hother s). }
  destruct date_string as [| |s| | |];
    [reflexivity | reflexivity | | reflexivity..].
  unfold _parse_rss_date.
  assert (first_parsed w1 s formats = first_parsed w2 s formats) as ->;
    [|reflexivity].
  change formats with ("%a, %d %b %Y %H:%M:%S %Z" :: tail formats).
  generalize (first_parsed_zone_free w1 w2 s (tail formats) (λ _ H, H)).
  generalize (tail formats). intros rest Hrest. cbn [first_parsed].
  rewrite (Hfirst s eq_refl), Hrest. reflexivity.
Qed.

Lemma parse_rss_date_zone_free_witness :
  let brussels : World :=
    {| tzname := ("CET", "CEST"); daylight := true;
       BeautifulSoup := text_parser; session_get := λ _ _, None;
       xmltodict_parse := λ _, None; now_isoformat := "" |} in
  _parse_rss_date brussels (VStr "2024-03-09T07:05:00+0100")
  = _parse_rss_date world_offline (VStr "2024-03-09T07:05:00+0100").
Proof.
  intros brussels.
  destruct (parse_rss_date_zone_free brussels world_offline
              (VStr "2024-03-09T07:05:00+0100")) as [Hsame _]; [|exact Hsame].
  intros s Hs. injection Hs as <-. vm_compute. reflexivity.
Defined.

End RSSMore.
